(** * testkit: the SQL test harness of tidb (testkit/testkit.go)

  A shallow embedding of [TestKit] and of the methods the specification
  speaks about: [Exec], [MustQuery], [QueryToErr], [HasPlan],
  [MustUseIndex], [MustGetErrCode], [newSession], [NewTestKit],
  [RefreshSession] and [RefreshConnectionID].

  The harness is glue code over the engine's session API.  The engine is
  kept abstract (a record of functions over an engine state), the harness
  is written in a small state monad whose outcomes are the three ways a Go
  test function can end: it returns, it stops the test ([t.FailNow]), or
  it panics. *)

From Stdlib Require Import ZArith String Ascii Bool Arith Lia Sorted List.
Import ListNotations.

Set Implicit Arguments.

(* ===================================================================== *)
(** ** Errors: github.com/pingcap/errors and parser/terror               *)
(* ===================================================================== *)

Module terror.

(** [*terror.Error], the structured error of the library. *)
Record Error : Type := mkError {
  class : Z;
  code : Z;
  message : string
}.

End terror.

Module mysql.

(** [*mysql.SQLError]; [Code] is a [uint16]. *)
Record SQLError : Type := mkSQLError {
  Code : Z;
  Message : string
}.

End mysql.

(** A Go [error] value.  Nil is [None] of [option error]. *)
Inductive error : Type :=
| TError (e : terror.Error)          (* a *terror.Error *)
| errorString (msg : string)         (* any other error value *)
| withStack (cause : error).         (* the wrapper errors.Trace adds *)

Module errors.

(** Modelled from the spec: the errors package is not in src/.  The
    structured error "must support cause unwrapping", and errors are
    "propagated to the caller unmodified in identity but traced":
    [Trace] wraps an error that carries no stack yet, [Cause] removes
    every wrapper. *)
Definition HasStack (err : error) : bool :=
  match err with
  | withStack _ => true
  | _ => false
  end.

Definition Trace (err : error) : error :=
  if HasStack err then err else withStack err.

Fixpoint Cause (err : error) : error :=
  match err with
  | withStack cause => Cause cause
  | _ => err
  end.

End errors.

(* ===================================================================== *)
(** ** strings                                                            *)
(* ===================================================================== *)

Module strings.

(** [strings.Contains(s, substr)] is [strings.Index(s, substr) >= 0]. *)
Definition Contains (s substr : string) : bool :=
  match String.index 0 substr s with
  | Some _ => true
  | None => false
  end.

End strings.

(** [sub] occurs in [s]. *)
Definition is_substring (sub s : string) : Prop :=
  exists pre post : string, s = String.append pre (String.append sub post).

(* ===================================================================== *)
(** ** Outcomes and the harness monad                                     *)
(* ===================================================================== *)

(** How a call of a harness method ends. *)
Inductive Outcome (A : Type) : Type :=
| Returns (a : A)      (* the method returns a *)
| FailNow              (* a require assertion failed: the test stops *)
| Panic.               (* run-time panic: nil receiver, index out of range *)

Arguments FailNow {A}.
Arguments Panic {A}.

Declare Scope harness_scope.
Delimit Scope harness_scope with harness.

Section Harness.

(** The engine's types, opaque to the harness. *)
Variable StmtNode : Type.     (* ast.StmtNode *)
Variable RecordSet : Type.    (* a non-nil sqlexec.RecordSet *)
Variable Datum : Type.        (* types.Datum *)
Variable Arg : Type.          (* an interface{} argument *)
Variable Storage : Type.      (* kv.Storage *)
Variable SQLWarn : Type.      (* stmtctx.SQLWarn *)
Variable ChunkRow : Type.     (* chunk.Row *)
Variable Private : Type.      (* everything else the engine keeps *)

(** Go pointers: to a session object, to a statement context. *)
Definition SessionRef := nat.
Definition StmtCtxRef := nat.

(** Modelled from the spec: [stmtctx.StatementContext] is not in src/.
    The harness uses its "warning list accessor/appender" and
    [AppendError]. *)
Record StatementContext : Type := mkStmtCtx {
  sc_warnings : list SQLWarn;
  sc_errors : list error
}.

(** The engine's objects.  Session and statement-context objects are
    reached through pointers, so the harness and the engine see the same
    objects. *)
Record World : Type := mkWorld {
  StmtCtx : SessionRef -> StmtCtxRef;       (* se.GetSessionVars().StmtCtx *)
  ctxs : StmtCtxRef -> StatementContext;    (* the statement contexts *)
  connectionID : SessionRef -> Z;           (* uint64 *)
  private : Private
}.

Definition update {A : Type} (f : nat -> A) (k : nat) (v : A) : nat -> A :=
  fun k' => if Nat.eqb k' k then v else f k'.

Definition GetWarnings (sc : StmtCtxRef) (w : World) : list SQLWarn :=
  sc_warnings (ctxs w sc).

Definition AppendWarnings (sc : StmtCtxRef) (warns : list SQLWarn) (w : World) : World :=
  mkWorld (StmtCtx w)
          (update (ctxs w) sc
             (mkStmtCtx (sc_warnings (ctxs w sc) ++ warns) (sc_errors (ctxs w sc))))
          (connectionID w) (private w).

Definition AppendError (sc : StmtCtxRef) (err : error) (w : World) : World :=
  mkWorld (StmtCtx w)
          (update (ctxs w) sc
             (mkStmtCtx (sc_warnings (ctxs w sc)) (sc_errors (ctxs w sc) ++ [err])))
          (connectionID w) (private w).

(** Modelled from the spec: "connection-id accessor/mutator". *)
Definition SetConnectionID (se : SessionRef) (id : Z) (w : World) : World :=
  mkWorld (StmtCtx w) (ctxs w) (update (connectionID w) se id) (private w).

(** The engine functions the harness calls: the methods of
    [session.Session] and of [sqlexec.RecordSet], the helpers of package
    session, [types.NewDatum] and [terror.ToSQLError].  None of them is
    in src/; each may change the engine's objects in any way. *)
Record Engine : Type := mkEngine {
  Parse : SessionRef -> string -> World -> (list StmtNode * option error) * World;
  ExecuteStmt : SessionRef -> StmtNode -> World -> (option RecordSet * option error) * World;
  PrepareStmt : SessionRef -> string -> World -> (Z * option error) * World;
  ExecutePreparedStmt :
    SessionRef -> Z -> list Datum -> World -> (option RecordSet * option error) * World;
  DropPreparedStmt : SessionRef -> Z -> World -> option error * World;
  CreateSession4Test : Storage -> World -> (option SessionRef * option error) * World;
  GetRows4Test :
    option SessionRef -> option RecordSet -> World -> (list ChunkRow * option error) * World;
  ResultSetToStringSlice :
    option SessionRef -> option RecordSet -> World ->
    (list (list string) * option error) * World;
  Close : RecordSet -> World -> option error * World;
  NewDatum : Arg -> Datum;
  ToSQLError : terror.Error -> mysql.SQLError
}.

Variable E : Engine.

(** The calls the harness makes into the engine, in the order made. *)
Inductive Call : Type :=
| CallParse (se : SessionRef) (sql : string)
| CallExecuteStmt (se : SessionRef) (stmt : StmtNode)
| CallPrepareStmt (se : SessionRef) (sql : string)
| CallExecutePreparedStmt (se : SessionRef) (stmtID : Z) (params : list Datum)
| CallDropPreparedStmt (se : SessionRef) (stmtID : Z)
| CallCreateSession4Test (store : Storage)
| CallSetConnectionID (se : SessionRef) (id : Z)
| CallGetRows4Test (se : option SessionRef) (rs : option RecordSet)
| CallResultSetToStringSlice (se : option SessionRef) (rs : option RecordSet)
| CallClose (rs : RecordSet).

(** The state of the test process: the engine's objects, the package
    variable [testKitIDGenerator] (an [atomic.Uint64]) and the history of
    engine calls. *)
Record Process : Type := mkProcess {
  world : World;
  testKitIDGenerator : Z;
  calls : list Call
}.

Definition M (A : Type) : Type := Process -> Outcome A * Process.

Definition ret {A : Type} (a : A) : M A := fun p => (Returns a, p).

Definition bind {A B : Type} (m : M A) (k : A -> M B) : M B :=
  fun p =>
    match m p with
    | (Returns a, p') => k a p'
    | (FailNow, p') => (FailNow, p')
    | (Panic, p') => (Panic, p')
    end.

Definition failNow {A : Type} : M A := fun p => (FailNow, p).
Definition panic {A : Type} : M A := fun p => (Panic, p).

(** Read the engine's objects. *)
Definition gets {A : Type} (f : World -> A) : M A :=
  fun p => (Returns (f (world p)), p).

(** Change the engine's objects (a method of a modelled object). *)
Definition modify (f : World -> World) : M unit :=
  fun p => (Returns tt, mkProcess (f (world p)) (testKitIDGenerator p) (calls p)).

(** Call an engine function and record the call. *)
Definition call {A : Type} (c : Call) (f : World -> A * World) : M A :=
  fun p =>
    let (a, w) := f (world p) in
    (Returns a, mkProcess w (testKitIDGenerator p) (calls p ++ [c])).

Local Open Scope harness_scope.

Notation "x <- m ;; k" := (bind m (fun x => k))
  (at level 61, m at next level, right associativity) : harness_scope.
Notation "' pat <- m ;; k" := (bind m (fun x => match x with pat => k end))
  (at level 61, pat pattern, m at next level, right associativity) : harness_scope.
Notation "m ;; k" := (bind m (fun _ => k))
  (at level 61, right associativity) : harness_scope.

(* =================================================================== *)
(** ** require: assertions that stop the test                          *)
(* =================================================================== *)

Definition require_NoError (err : option error) : M unit :=
  match err with
  | None => ret tt
  | Some _ => failNow
  end.

Definition require_Error (err : option error) : M unit :=
  match err with
  | Some _ => ret tt
  | None => failNow
  end.

Definition require_NotNil {A : Type} (object : option A) : M unit :=
  match object with
  | Some _ => ret tt
  | None => failNow
  end.

Definition require_Truef (value : bool) : M unit :=
  if value then ret tt else failNow.

Definition require_Equalf (expected actual : Z) : M unit :=
  if Z.eqb expected actual then ret tt else failNow.

(* =================================================================== *)
(** ** TestKit                                                          *)
(* =================================================================== *)

(** [TestKit].  The fields [require], [assert] and [t] are the test the
    harness reports to; a failed [require] is the outcome [FailNow]. *)
Record TestKit : Type := mkTestKit {
  store : Storage;
  session : option SessionRef       (* a nil session.Session is None *)
}.

(** The receiver of a method call [x.m(...)]: a nil receiver panics. *)
Definition receiver {A : Type} (x : option A) : M A :=
  match x with
  | Some a => ret a
  | None => panic
  end.

(** [l[n:]]: panics when [n] is beyond the length. *)
Definition slice_from {A : Type} (l : list A) (n : nat) : M (list A) :=
  if Nat.leb n (length l) then ret (skipn n l) else panic.

(** [row[i]]: panics when [i] is out of range. *)
Definition index {A : Type} (row : list A) (i : nat) : M A :=
  match nth_error row i with
  | Some c => ret c
  | None => panic
  end.

(** [SetSession] sets the session of the testkit. *)
Definition SetSession (tk : TestKit) (se : option SessionRef) : TestKit :=
  mkTestKit (store tk) se.

(** [Session] returns the session associated with the testkit. *)
Definition Session (tk : TestKit) : option SessionRef := session tk.

(** The loop of [Exec] over the parsed statements, from index [i] on.
    [inl r] is the early [return r] of the loop body, [inr rs0] is the
    value of [rs0] when the loop ends. *)
Fixpoint Exec_loop (tk : TestKit) (i : nat) (stmts : list StmtNode)
    (rs0 : option RecordSet)
  : M ((option RecordSet * option error) + option RecordSet) :=
  match stmts with
  | [] => ret (inr rs0)
  | stmt :: rest =>
      se <- receiver (session tk) ;;
      ' (rs, err) <- call (CallExecuteStmt se stmt) (ExecuteStmt E se stmt) ;;
      let rs0 := if Nat.eqb i 0 then rs else rs0 in
      match err with
      | Some e =>
          se <- receiver (session tk) ;;
          sc <- gets (fun w => StmtCtx w se) ;;
          modify (AppendError sc e) ;;
          ret (inl (None, Some (errors.Trace e)))
      | None => Exec_loop tk (S i) rest rs0
      end
  end.

(** [Exec] executes a sql statement using the prepared stmt API. *)
Definition Exec (tk : TestKit) (sql : string) (args : list Arg)
  : M (option RecordSet * option error) :=
  if Nat.eqb (length args) 0 then
    se <- receiver (session tk) ;;
    sc <- gets (fun w => StmtCtx w se) ;;
    prevWarns <- gets (GetWarnings sc) ;;
    se <- receiver (session tk) ;;
    ' (stmts, err) <- call (CallParse se sql) (Parse E se sql) ;;
    match err with
    | Some e => ret (None, Some (errors.Trace e))
    | None =>
        warns <- gets (GetWarnings sc) ;;
        parserWarns <- slice_from warns (length prevWarns) ;;
        r <- Exec_loop tk 0 stmts None ;;
        match r with
        | inl early => ret early
        | inr rs0 =>
            (if Nat.ltb 0 (length parserWarns) then
               se <- receiver (session tk) ;;
               sc' <- gets (fun w => StmtCtx w se) ;;
               modify (AppendWarnings sc' parserWarns)
             else ret tt) ;;
            ret (rs0, None)
        end
    end
  else
    se <- receiver (session tk) ;;
    ' (stmtID, err) <- call (CallPrepareStmt se sql) (PrepareStmt E se sql) ;;
    match err with
    | Some e => ret (None, Some (errors.Trace e))
    | None =>
        let params := map (NewDatum E) args in
        se <- receiver (session tk) ;;
        ' (rs, err) <- call (CallExecutePreparedStmt se stmtID params)
                            (ExecutePreparedStmt E se stmtID params) ;;
        match err with
        | Some e => ret (None, Some (errors.Trace e))
        | None =>
            se <- receiver (session tk) ;;
            err <- call (CallDropPreparedStmt se stmtID) (DropPreparedStmt E se stmtID) ;;
            match err with
            | Some e => ret (None, Some (errors.Trace e))
            | None => ret (rs, None)
            end
        end
    end.

(** [Result]: the rows of a query as strings.  Its [comment] is only
    printed when an assertion fails. *)
Record Result : Type := mkResult {
  rows : list (list string)
}.

(** [MustExec] executes a sql statement and asserts nil error. *)
Definition MustExec (tk : TestKit) (sql : string) (args : list Arg) : M unit :=
  ' (res, err) <- Exec tk sql args ;;
  require_NoError err ;;
  match res with
  | Some rs =>
      err <- call (CallClose rs) (Close E rs) ;;
      require_NoError err
  | None => ret tt
  end.

(** [ResultSetToResultWithCtx] converts [sqlexec.RecordSet] to
    [testkit.Result]. *)
Definition ResultSetToResultWithCtx (tk : TestKit) (rs : option RecordSet) : M Result :=
  ' (rows, err) <- call (CallResultSetToStringSlice (session tk) rs)
                       (ResultSetToStringSlice E (session tk) rs) ;;
  require_NoError err ;;
  ret (mkResult rows).

Definition ResultSetToResult (tk : TestKit) (rs : option RecordSet) : M Result :=
  ResultSetToResultWithCtx tk rs.

(** [MustQuery] query the statements and returns result rows. *)
Definition MustQuery (tk : TestKit) (sql : string) (args : list Arg) : M Result :=
  ' (rs, err) <- Exec tk sql args ;;
  require_NoError err ;;
  require_NotNil rs ;;
  ResultSetToResult tk rs.

(** [QueryToErr] executes a sql statement and discard results. *)
Definition QueryToErr (tk : TestKit) (sql : string) (args : list Arg) : M (option error) :=
  ' (res, err) <- Exec tk sql args ;;
  require_NoError err ;;
  require_NotNil res ;;
  ' (_, resErr) <- call (CallGetRows4Test (session tk) res)
                       (GetRows4Test E (session tk) res) ;;
  rs <- receiver res ;;
  err <- call (CallClose rs) (Close E rs) ;;
  require_NoError err ;;
  ret resErr.

(** The loop of [HasPlan] and of [HasPlan4ExplainFor]. *)
Fixpoint HasPlan_loop (rows : list (list string)) (plan : string) : M bool :=
  match rows with
  | [] => ret false
  | row :: rest =>
      c <- index row 0 ;;
      if strings.Contains c plan then ret true else HasPlan_loop rest plan
  end.

(** [HasPlan] checks if the result execution plan contains specific plan. *)
Definition HasPlan (tk : TestKit) (sql plan : string) (args : list Arg) : M bool :=
  rs <- MustQuery tk (String.append "explain " sql) args ;;
  HasPlan_loop (rows rs) plan.

Definition HasPlan4ExplainFor (result : Result) (plan : string) : M bool :=
  HasPlan_loop (rows result) plan.

(** [ExecToErr] executes a sql statement and discard results. *)
Definition ExecToErr (tk : TestKit) (sql : string) (args : list Arg) : M (option error) :=
  ' (res, err) <- Exec tk sql args ;;
  match res with
  | Some rs =>
      cerr <- call (CallClose rs) (Close E rs) ;;
      require_NoError cerr
  | None => ret tt
  end ;;
  ret err.

(** [testKitIDGenerator.Inc()]: adds one to the [uint64] counter and
    returns the new value. *)
Definition Inc : M Z :=
  fun p =>
    let v := ((testKitIDGenerator p + 1) mod 2 ^ 64)%Z in
    (Returns v, mkProcess (world p) v (calls p)).

Definition newSession (store : Storage) : M SessionRef :=
  ' (se, err) <- call (CallCreateSession4Test store) (CreateSession4Test E store) ;;
  require_NoError err ;;
  id <- Inc ;;
  se <- receiver se ;;
  call (CallSetConnectionID se id) (fun w => (tt, SetConnectionID se id w)) ;;
  ret se.

(** [NewTestKit] returns a new [*TestKit]. *)
Definition NewTestKit (store : Storage) : M TestKit :=
  se <- newSession store ;;
  ret (mkTestKit store (Some se)).

(** [RefreshSession] set a new session for the testkit. *)
Definition RefreshSession (tk : TestKit) : M TestKit :=
  se <- newSession (store tk) ;;
  ret (mkTestKit (store tk) (Some se)).

(** [RefreshConnectionID] refresh the connection ID for session of the
    testkit. *)
Definition RefreshConnectionID (tk : TestKit) : M unit :=
  match session tk with
  | Some se =>
      id <- Inc ;;
      call (CallSetConnectionID se id) (fun w => (tt, SetConnectionID se id w))
  | None => ret tt
  end.

(** [MustGetErrCode] executes a sql statement and assert it's error code. *)
Definition MustGetErrCode (tk : TestKit) (sql : string) (errCode : Z) : M unit :=
  ' (_, err) <- Exec tk sql [] ;;
  require_Error err ;;
  let originErr := option_map errors.Cause err in
  let (tErr, ok) :=
    match originErr with
    | Some (TError te) => (Some te, true)
    | _ => (None, false)
    end in
  require_Truef ok ;;
  te <- receiver tErr ;;
  let sqlErr := ToSQLError E te in
  require_Equalf errCode (mysql.Code sqlErr).

(** The loop of [MustUseIndex]. *)
Fixpoint MustUseIndex_loop (rows : list (list string)) (idx : string) : M bool :=
  match rows with
  | [] => ret false
  | row :: rest =>
      c <- index row 3 ;;
      if strings.Contains c (String.append "index:" idx) then ret true
      else MustUseIndex_loop rest idx
  end.

(** [MustUseIndex] checks if the result execution plan contains specific
    index(es). *)
Definition MustUseIndex (tk : TestKit) (sql idx : string) (args : list Arg) : M bool :=
  rs <- MustQuery tk (String.append "explain " sql) args ;;
  MustUseIndex_loop (rows rs) idx.

(* =================================================================== *)
(** ** Runs of the harness, for the statements of the properties        *)
(* =================================================================== *)

(** Session [se] executes [stmts] one after the other, starting in world
    [w]; each returns without error; [rss] are the record sets they
    return and [wn] is the world after the last one. *)
Inductive succeed_in_order (se : SessionRef)
  : list StmtNode -> World -> list (option RecordSet) -> World -> Prop :=
| succeed_nil : forall w, succeed_in_order se [] w [] w
| succeed_cons : forall stmt rest w rs w1 rss wn,
    ExecuteStmt E se stmt w = ((rs, None), w1) ->
    succeed_in_order se rest w1 rss wn ->
    succeed_in_order se (stmt :: rest) w (rs :: rss) wn.

(** The warnings parsing added to statement context [sc]: those present
    in [after] beyond the ones present in [before]. *)
Definition parser_warnings (sc : StmtCtxRef) (before after : World) : list SQLWarn :=
  skipn (length (GetWarnings sc before)) (GetWarnings sc after).

(** The hypotheses shared by the properties of [Exec] without arguments:
    the harness has a session, parsing succeeds, and parsing does not
    remove warnings from the statement context. *)
Definition parses (tk : TestKit) (se : SessionRef) (sql : string)
    (p : Process) (stmts : list StmtNode) (w1 : World) : Prop :=
  session tk = Some se /\
  Parse E se sql (world p) = ((stmts, None), w1) /\
  length (GetWarnings (StmtCtx (world p) se) (world p))
  <= length (GetWarnings (StmtCtx (world p) se) w1).

(** What one test process does with its harnesses, as far as connection
    identifiers go: it creates harnesses, refreshes their sessions or
    connection identifiers, replaces their sessions and executes
    statements.  [k] is the position of the harness among those created. *)
Inductive Op : Type :=
| OpNewTestKit (store : Storage)
| OpRefreshSession (k : nat)
| OpRefreshConnectionID (k : nat)
| OpSetSession (k : nat) (se : option SessionRef)
| OpExec (k : nat) (sql : string) (args : list Arg).

Fixpoint set_nth {A : Type} (k : nat) (a : A) (l : list A) : list A :=
  match l, k with
  | [], _ => []
  | _ :: t, O => a :: t
  | h :: t, S k' => h :: set_nth k' a t
  end.

Definition step (op : Op) (kits : list TestKit) (p : Process) : list TestKit * Process :=
  match op with
  | OpNewTestKit store =>
      match NewTestKit store p with
      | (Returns tk, p') => (kits ++ [tk], p')
      | (_, p') => (kits, p')
      end
  | OpRefreshSession k =>
      match nth_error kits k with
      | Some tk =>
          match RefreshSession tk p with
          | (Returns tk', p') => (set_nth k tk' kits, p')
          | (_, p') => (kits, p')
          end
      | None => (kits, p)
      end
  | OpRefreshConnectionID k =>
      match nth_error kits k with
      | Some tk => (kits, snd (RefreshConnectionID tk p))
      | None => (kits, p)
      end
  | OpSetSession k se =>
      match nth_error kits k with
      | Some tk => (set_nth k (SetSession tk se) kits, p)
      | None => (kits, p)
      end
  | OpExec k sql args =>
      match nth_error kits k with
      | Some tk => (kits, snd (Exec tk sql args p))
      | None => (kits, p)
      end
  end.

Fixpoint run (ops : list Op) (kits : list TestKit) (p : Process) : list TestKit * Process :=
  match ops with
  | [] => (kits, p)
  | op :: rest => let (kits', p') := step op kits p in run rest kits' p'
  end.

(** The connection identifiers assigned by the calls [cs], in order. *)
Fixpoint assigned (cs : list Call) : list Z :=
  match cs with
  | [] => []
  | CallSetConnectionID _ id :: rest => id :: assigned rest
  | _ :: rest => assigned rest
  end.

(** A harness method that leaves [testKitIDGenerator] alone and assigns
    no connection identifier. *)
Definition assigns_nothing {A : Type} (m : M A) : Prop :=
  forall p : Process,
    testKitIDGenerator (snd (m p)) = testKitIDGenerator p /\
    exists new, calls (snd (m p)) = calls p ++ new /\ assigned new = [].

(** Every row has the same number of columns, as the rows of one record
    set have. *)
Definition rectangular (rows : list (list string)) : Prop :=
  exists n : nat, Forall (fun row => length row = n) rows.

End Harness.

Arguments failNow {StmtNode RecordSet Datum Storage SQLWarn Private A}.
Arguments Inc {StmtNode RecordSet Datum Storage SQLWarn Private}.
Arguments panic {StmtNode RecordSet Datum Storage SQLWarn Private A}.
Arguments CallParse {StmtNode RecordSet Datum Storage}.
Arguments CallExecuteStmt {StmtNode RecordSet Datum Storage}.
Arguments CallPrepareStmt {StmtNode RecordSet Datum Storage}.
Arguments CallExecutePreparedStmt {StmtNode RecordSet Datum Storage}.
Arguments CallDropPreparedStmt {StmtNode RecordSet Datum Storage}.
Arguments CallCreateSession4Test {StmtNode RecordSet Datum Storage}.
Arguments CallSetConnectionID {StmtNode RecordSet Datum Storage}.
Arguments CallGetRows4Test {StmtNode RecordSet Datum Storage}.
Arguments CallResultSetToStringSlice {StmtNode RecordSet Datum Storage}.
Arguments CallClose {StmtNode RecordSet Datum Storage}.
Arguments OpNewTestKit {Arg Storage}.
Arguments OpRefreshSession {Arg Storage}.
Arguments OpRefreshConnectionID {Arg Storage}.
Arguments OpSetSession {Arg Storage}.
Arguments OpExec {Arg Storage}.

(* ===================================================================== *)
(** ** A small engine, to run the harness on concrete inputs             *)
(* ===================================================================== *)

Module Mock.

(** Statements, record sets, arguments and warnings are their texts. *)
Record Private : Type := mkPrivate {
  prepared : list (Z * string);     (* the prepared statements: id, text *)
  nextStmtID : Z;
  nextSession : nat;
  nextStmtCtx : nat;
  closed : list string               (* the record sets closed so far *)
}.

Definition World := World string Private.

Fixpoint split (sep : ascii) (s : string) : list string :=
  match s with
  | EmptyString => [EmptyString]
  | String c s' =>
      if Ascii.eqb c sep then EmptyString :: split sep s'
      else match split sep s' with
           | [] => [String c EmptyString]
           | hd :: tl => String c hd :: tl
           end
  end.

Definition set_private (w : World) (pr : Private) : World :=
  mkWorld (StmtCtx w) (ctxs w) (connectionID w) pr.

Definition execError : error := TError (terror.mkError 1 1105 "execution failed").
Definition parseError : error := TError (terror.mkError 1 1064 "syntax error").

(** Parsing rejects a text that contains "syntax error", warns about a
    text that contains "deprecated", and splits the text at semicolons. *)
Definition Parse (se : SessionRef) (sql : string) (w : World)
  : (list string * option error) * World :=
  if strings.Contains sql "syntax error" then (([], Some parseError), w)
  else
    let w' := if strings.Contains sql "deprecated"
              then AppendWarnings (StmtCtx w se) ["deprecated syntax"%string] w
              else w in
    ((split ";" sql, None), w').

(** Every statement starts with a fresh statement context. *)
Definition ResetContextOfStmt (se : SessionRef) (w : World) : World :=
  let sc := nextStmtCtx (private w) in
  let pr := private w in
  mkWorld (update (StmtCtx w) se sc)
          (update (ctxs w) sc (mkStmtCtx [] []))
          (connectionID w)
          (mkPrivate (prepared pr) (nextStmtID pr) (nextSession pr) (S sc) (closed pr)).

Definition execute (text : string) : option string * option error :=
  if strings.Contains text "fail" then (None, Some execError)
  else if String.prefix "set " text then (None, None)
  else (Some text, None).

Definition ExecuteStmt (se : SessionRef) (stmt : string) (w : World)
  : (option string * option error) * World :=
  (execute stmt, ResetContextOfStmt se w).

Definition PrepareStmt (se : SessionRef) (sql : string) (w : World)
  : (Z * option error) * World :=
  if strings.Contains sql "syntax error" then ((0%Z, Some parseError), w)
  else
    let pr := private w in
    let id := nextStmtID pr in
    ((id, None),
     set_private w (mkPrivate ((id, sql) :: prepared pr) (id + 1)%Z
                              (nextSession pr) (nextStmtCtx pr) (closed pr))).

Fixpoint lookup (id : Z) (l : list (Z * string)) : option string :=
  match l with
  | [] => None
  | (id', text) :: rest => if Z.eqb id id' then Some text else lookup id rest
  end.

Fixpoint remove (id : Z) (l : list (Z * string)) : list (Z * string) :=
  match l with
  | [] => []
  | (id', text) :: rest =>
      if Z.eqb id id' then remove id rest else (id', text) :: remove id rest
  end.

Definition ExecutePreparedStmt (se : SessionRef) (id : Z) (params : list string) (w : World)
  : (option string * option error) * World :=
  match lookup id (prepared (private w)) with
  | Some text => (execute text, ResetContextOfStmt se w)
  | None => ((None, Some (errorString "unknown prepared statement")), w)
  end.

(** Dropping fails for a statement whose text contains "undroppable". *)
Definition DropPreparedStmt (se : SessionRef) (id : Z) (w : World) : option error * World :=
  match lookup id (prepared (private w)) with
  | Some text =>
      if strings.Contains text "undroppable"
      then (Some (errorString "cannot drop"), w)
      else
        let pr := private w in
        (None, set_private w (mkPrivate (remove id (prepared pr)) (nextStmtID pr)
                                        (nextSession pr) (nextStmtCtx pr) (closed pr)))
  | None => (Some (errorString "unknown prepared statement"), w)
  end.

(** A closed store ([false]) gives no session. *)
Definition CreateSession4Test (store : bool) (w : World)
  : (option SessionRef * option error) * World :=
  if store then
    let pr := private w in
    let se := nextSession pr in
    let sc := nextStmtCtx pr in
    ((Some se, None),
     mkWorld (update (StmtCtx w) se sc)
             (update (ctxs w) sc (mkStmtCtx [] []))
             (connectionID w)
             (mkPrivate (prepared pr) (nextStmtID pr) (S se) (S sc) (closed pr)))
  else ((None, Some (errorString "store is closed")), w).

(** The rows of a record set are written in its text: rows are separated
    by "|", columns by ",".  Streaming fails for a text that contains
    "broken". *)
Definition GetRows4Test (se : option SessionRef) (rs : option string) (w : World)
  : (list (list string) * option error) * World :=
  match rs with
  | None => (([], None), w)
  | Some text =>
      if strings.Contains text "broken" then (([], Some (errorString "stream broken")), w)
      else ((map (split ",") (split "|" text), None), w)
  end.

(** Closing fails for a text that contains "unclosable". *)
Definition Close (rs : string) (w : World) : option error * World :=
  if strings.Contains rs "unclosable" then (Some (errorString "cannot close"), w)
  else
    let pr := private w in
    (None, set_private w (mkPrivate (prepared pr) (nextStmtID pr) (nextSession pr)
                                    (nextStmtCtx pr) (rs :: closed pr))).

Definition ResultSetToStringSlice (se : option SessionRef) (rs : option string) (w : World)
  : (list (list string) * option error) * World :=
  match GetRows4Test se rs w with
  | ((rows, Some e), w') => (([], Some e), w')
  | ((rows, None), w') =>
      match rs with
      | Some text =>
          match Close text w' with
          | (Some e, w'') => (([], Some e), w'')
          | (None, w'') => ((rows, None), w'')
          end
      | None => ((rows, None), w')
      end
  end.

Definition ToSQLError (e : terror.Error) : mysql.SQLError :=
  mysql.mkSQLError (terror.code e) (terror.message e).

Definition engine : Engine string string string string bool string (list string) Private :=
  mkEngine Parse ExecuteStmt PrepareStmt ExecutePreparedStmt DropPreparedStmt
           CreateSession4Test GetRows4Test ResultSetToStringSlice Close
           (fun arg : string => arg) ToSQLError.

(** A process with one session, [0], whose statement context is [0]. *)
Definition world0 : World :=
  mkWorld (fun _ => 0) (fun _ => mkStmtCtx [] []) (fun _ => 0%Z)
          (mkPrivate [] 1 1 1 []).

Definition process0 : Process string string string bool string Private :=
  mkProcess world0 0 [].

Definition tk0 : TestKit bool := mkTestKit true (Some 0).

End Mock.

(* ===================================================================== *)
(** ** The other helpers of the harness                                  *)
(* ===================================================================== *)

Section HarnessHelpers.

Variable StmtNode : Type.
Variable RecordSet : Type.
Variable Datum : Type.
Variable Arg : Type.
Variable Storage : Type.
Variable SQLWarn : Type.
Variable ChunkRow : Type.
Variable Private : Type.

Variable E : Engine StmtNode RecordSet Datum Arg Storage SQLWarn ChunkRow Private.

(** Three more functions of the engine, none of them in src/: the method
    [Error()] of an error value and the accessors [AffectedRows()] and
    [LastInsertID()] of a session, both [uint64]. *)
Variable ErrorString : error -> string.
Variable AffectedRows : SessionRef -> World SQLWarn Private -> Z.
Variable LastInsertID : SessionRef -> World SQLWarn Private -> Z.

Local Abbreviation M := (M StmtNode RecordSet Datum Storage SQLWarn Private).

Local Open Scope harness_scope.

Notation "x <- m ;; k" := (bind m (fun x => k))
  (at level 61, m at next level, right associativity) : harness_scope.
Notation "m ;; k" := (bind m (fun _ => k))
  (at level 61, right associativity) : harness_scope.

(** [require.Equal] on two strings. *)
Definition require_Equal_string (expected actual : string) : M unit :=
  if String.eqb expected actual then ret tt else failNow.

(** [require.Equal] on two integers. *)
Definition require_Equal (expected actual : Z) : M unit :=
  if Z.eqb expected actual then ret tt else failNow.

(** The conversion [int64(x)] of a [uint64]. *)
Definition int64 (x : Z) : Z :=
  ((x + 2 ^ 63) mod 2 ^ 64 - 2 ^ 63)%Z.

(** [MustGetErrMsg] executes a sql statement and assert it's error
    message. *)
Definition MustGetErrMsg (tk : TestKit Storage) (sql errStr : string) : M unit :=
  err <- ExecToErr E tk sql [] ;;
  require_Error err ;;
  e <- receiver err ;;
  require_Equal_string errStr (ErrorString e).

(** The loop of [MustUseIndex4ExplainFor]. *)
Fixpoint MustUseIndex4ExplainFor_loop (rows : list (list string)) (idx : string) : M bool :=
  match rows with
  | [] => ret false
  | row :: rest =>
      c3 <- index row 3 ;;
      if strings.Contains c3 (String.append "index:" idx) then ret true
      else
        c4 <- index row 4 ;;
        if strings.Contains c4 (String.append "index:" idx) then ret true
        else MustUseIndex4ExplainFor_loop rest idx
  end.

(** [MustUseIndex4ExplainFor] checks if the result execution plan
    contains specific index(es). *)
Definition MustUseIndex4ExplainFor (result : Result) (idx : string) : M bool :=
  MustUseIndex4ExplainFor_loop (rows result) idx.

(** [CheckExecResult] checks the affected rows and the insert id after
    executing [MustExec]. *)
Definition CheckExecResult (tk : TestKit Storage) (affectedRows insertID : Z) : M unit :=
  se <- receiver (Session tk) ;;
  n <- gets (AffectedRows se) ;;
  require_Equal (int64 n) affectedRows ;;
  se <- receiver (Session tk) ;;
  id <- gets (LastInsertID se) ;;
  require_Equal (int64 id) insertID.

(** The loop of [containGlobal]; [partitionNameCol] is 2. *)
Fixpoint containGlobal_loop (rows : list (list string)) : M bool :=
  match rows with
  | [] => ret false
  | row :: rest =>
      c <- index row 2 ;;
      if strings.Contains c "global" then ret true else containGlobal_loop rest
  end.

Definition containGlobal (rs : Result) : M bool :=
  containGlobal_loop (rows rs).

(** [MustNoGlobalStats] checks if there is no global stats. *)
Definition MustNoGlobalStats (tk : TestKit Storage) (table : string) : M bool :=
  r1 <- MustQuery E tk (String.append "show stats_meta where table_name like '"
                          (String.append table "'")) [] ;;
  b1 <- containGlobal r1 ;;
  if b1 then ret false
  else
    r2 <- MustQuery E tk (String.append "show stats_buckets where table_name like '"
                            (String.append table "'")) [] ;;
    b2 <- containGlobal r2 ;;
    if b2 then ret false
    else
      r3 <- MustQuery E tk (String.append "show stats_histograms where table_name like '"
                              (String.append table "'")) [] ;;
      b3 <- containGlobal r3 ;;
      if b3 then ret false else ret true.

(** Some row of [rs] has "global" inside its partition-name column. *)
Definition mentions_global (rs : Result) : Prop :=
  exists row c, In row (rows rs) /\ nth_error row 2 = Some c /\ is_substring "global" c.

(** The number of steps of the run [ops] that advance the counter
    [testKitIDGenerator]. *)
Fixpoint advances (ops : list (Op Arg Storage)) (kits : list (TestKit Storage))
    (p : Process StmtNode RecordSet Datum Storage SQLWarn Private) : nat :=
  match ops with
  | [] => 0
  | op :: rest =>
      let (kits', p') := step E op kits p in
      (if Z.eqb (testKitIDGenerator p') (testKitIDGenerator p) then 0 else 1)
      + advances rest kits' p'
  end.

End HarnessHelpers.

(** The small engine, continued. *)
Module MockHelpers.

Fixpoint ErrorString (e : error) : string :=
  match e with
  | TError te => terror.message te
  | errorString msg => msg
  | withStack cause => ErrorString cause
  end.

(** The session reports as many affected rows as there are record sets
    closed, and the largest [uint64] as its last insert id. *)
Definition AffectedRows (se : SessionRef) (w : Mock.World) : Z :=
  Z.of_nat (length (Mock.closed (private w))).

Definition LastInsertID (se : SessionRef) (w : Mock.World) : Z :=
  (2 ^ 64 - 1)%Z.

(** An engine whose parser gives no statement for the empty text. *)
Definition Parse (se : SessionRef) (sql : string) (w : Mock.World)
  : (list string * option error) * Mock.World :=
  if String.eqb sql "" then (([], None), w) else Mock.Parse se sql w.

Definition engine : Engine string string string string bool string (list string) Mock.Private :=
  mkEngine Parse Mock.ExecuteStmt Mock.PrepareStmt Mock.ExecutePreparedStmt
           Mock.DropPreparedStmt Mock.CreateSession4Test Mock.GetRows4Test
           Mock.ResultSetToStringSlice Mock.Close (fun arg : string => arg) Mock.ToSQLError.

End MockHelpers.

(* ===================================================================== *)
(** ** Properties                                                        *)
(* ===================================================================== *)

(** *** Errors and strings *)

Lemma Cause_Trace : forall e : error, errors.Cause (errors.Trace e) = errors.Cause e.
Proof.
  intros e. unfold errors.Trace. destruct (errors.HasStack e); reflexivity.
Qed.

Lemma Cause_idempotent : forall e : error, errors.Cause (errors.Cause e) = errors.Cause e.
Proof.
  induction e; simpl; auto.
Qed.

Lemma prefix_app : forall sub s : string,
  String.prefix sub s = true <-> exists post, s = String.append sub post.
Proof.
  induction sub as [|a sub IH]; intros s; simpl.
  - split; [intros _; exists s; reflexivity | intros _; destruct s; reflexivity].
  - destruct s as [|b s].
    + split; [discriminate | intros [post H]; discriminate].
    + simpl. destruct (Ascii.ascii_dec a b) as [->|Hne].
      * split.
        -- intros H. apply IH in H as [post H]. exists post. now rewrite H.
        -- intros [post H]. apply IH. exists post. now inversion H.
      * split; [discriminate | intros [post H]; inversion H; congruence].
Qed.

Lemma append_empty : forall pre s : string,
  String.append pre s = EmptyString -> pre = EmptyString /\ s = EmptyString.
Proof.
  intros [|a pre] s H; simpl in H; [auto | discriminate].
Qed.

Lemma index_found_iff : forall sub s : string,
  String.index 0 sub s <> None <-> is_substring sub s.
Proof.
  intros sub s. induction s as [|b s IH].
  - simpl. destruct sub as [|a sub].
    + split; [intros _; exists EmptyString, EmptyString; reflexivity | discriminate].
    + split; [congruence | ].
      intros [pre [post H]]. symmetry in H.
      apply append_empty in H as [_ H]. discriminate.
  - cbn [String.index].
    destruct (String.prefix sub (String b s)) eqn:Hp.
    + split; [intros _ | discriminate].
      apply prefix_app in Hp as [post Hp].
      exists EmptyString, post. exact Hp.
    + split.
      * intros H. destruct (String.index 0 sub s); [ | congruence].
        destruct IH as [IH _].
        destruct IH as [pre [post Hs]]; [discriminate | ].
        exists (String b pre), post. simpl. now rewrite Hs.
      * intros [pre [post Hs]]. destruct pre as [|c pre].
        -- simpl in Hs.
           assert (String.prefix sub (String b s) = true) as Ht
             by (apply prefix_app; exists post; exact Hs).
           congruence.
        -- simpl in Hs. inversion Hs; subst.
           destruct IH as [_ IH].
           destruct (String.index 0 sub (String.append pre (String.append sub post))).
           ++ discriminate.
           ++ exfalso. apply IH; [exists pre, post | ]; reflexivity.
Qed.

(** [strings.Contains] decides the substring relation. *)
Lemma Contains_spec : forall s sub : string,
  strings.Contains s sub = true <-> is_substring sub s.
Proof.
  intros s sub. rewrite <- index_found_iff. unfold strings.Contains.
  destruct (String.index 0 sub s); split; congruence.
Qed.

(** *** Exec without arguments: the statements of a batch *)

Section ExecBatch.

Context {StmtNode RecordSet Datum Arg Storage SQLWarn ChunkRow Private : Type}.
Variable E : Engine StmtNode RecordSet Datum Arg Storage SQLWarn ChunkRow Private.

Local Abbreviation Process := (Process StmtNode RecordSet Datum Storage SQLWarn Private).
Local Abbreviation World := (World SQLWarn Private).

#[local] Arguments GetWarnings : simpl never.
#[local] Arguments AppendWarnings : simpl never.
#[local] Arguments AppendError : simpl never.
#[local] Arguments Nat.ltb : simpl never.
#[local] Arguments Nat.leb : simpl never.

Ltac run_step :=
  unfold bind, ret, call, gets, modify, receiver, slice_from; cbn.

(** The loop runs a batch that succeeds to its end; [rs0] is set by the
    statement of index 0 only. *)
Lemma Exec_loop_succeeds :
  forall (tk : TestKit Storage) (se : SessionRef) (stmts : list StmtNode)
         (i : nat) (rs0 : option RecordSet) (p : Process)
         (rss : list (option RecordSet)) (wn : World),
    session tk = Some se ->
    succeed_in_order E se stmts (world p) rss wn ->
    Exec_loop E tk i stmts rs0 p =
    (Returns (inr (if Nat.eqb i 0 then hd rs0 rss else rs0)),
     mkProcess wn (testKitIDGenerator p) (calls p ++ map (CallExecuteStmt se) stmts)).
Proof.
  intros tk se stmts. induction stmts as [|stmt rest IH]; intros i rs0 p rss wn Hse Hrun.
  - inversion Hrun; subst. simpl. unfold ret. rewrite app_nil_r.
    destruct p; simpl. destruct (Nat.eqb i 0); reflexivity.
  - inversion Hrun as [|? ? ? rs w1 rss' ? Hstmt Hrest]; subst.
    cbn [Exec_loop]. run_step. rewrite Hse. cbn. rewrite Hstmt.
    erewrite IH; [ | exact Hse | exact Hrest].
    cbn. rewrite <- app_assoc. cbn.
    destruct (Nat.eqb i 0); reflexivity.
Qed.

(** The loop stops at the first statement that fails: it records the
    error in the statement context and returns no record set. *)
Lemma Exec_loop_fails :
  forall (tk : TestKit Storage) (se : SessionRef) (pre : list StmtNode)
         (si : StmtNode) (post : list StmtNode)
         (i : nat) (rs0 : option RecordSet) (p : Process)
         (rss : list (option RecordSet)) (wi : World)
         (rs : option RecordSet) (e : error) (wf : World),
    session tk = Some se ->
    succeed_in_order E se pre (world p) rss wi ->
    ExecuteStmt E se si wi = ((rs, Some e), wf) ->
    Exec_loop E tk i (pre ++ si :: post) rs0 p =
    (Returns (inl (None, Some (errors.Trace e))),
     mkProcess (AppendError (StmtCtx wf se) e wf) (testKitIDGenerator p)
               (calls p ++ map (CallExecuteStmt se) (pre ++ [si]))).
Proof.
  intros tk se pre. induction pre as [|stmt rest IH];
    intros si post i rs0 p rss wi rs e wf Hse Hrun Hfail.
  - inversion Hrun; subst. cbn [app Exec_loop]. run_step.
    rewrite Hse. cbn. rewrite Hfail. reflexivity.
  - inversion Hrun as [|? ? ? rs' w1 rss' ? Hstmt Hrest]; subst.
    cbn [app Exec_loop]. run_step. rewrite Hse. cbn. rewrite Hstmt.
    erewrite IH; [ | exact Hse | exact Hrest | exact Hfail].
    cbn. rewrite <- app_assoc. reflexivity.
Qed.

Lemma Exec_batch_succeeds :
  forall tk se sql p stmts w1 rss wn,
    parses E tk se sql p stmts w1 ->
    succeed_in_order E se stmts w1 rss wn ->
    let pw := parser_warnings (StmtCtx (world p) se) (world p) w1 in
    Exec E tk sql [] p =
    (Returns (hd None rss, None),
     mkProcess (if Nat.ltb 0 (length pw) then AppendWarnings (StmtCtx wn se) pw wn else wn)
               (testKitIDGenerator p)
               (calls p ++ CallParse se sql :: map (CallExecuteStmt se) stmts)).
Proof.
  intros tk se sql p stmts w1 rss wn (Hse & Hparse & Hlen) Hrun pw.
  unfold Exec. cbn [length Nat.eqb]. run_step. rewrite Hse. cbn. rewrite Hparse. cbn.
  apply Nat.leb_le in Hlen. rewrite Hlen. cbn.
  erewrite Exec_loop_succeeds; [ | exact Hse | exact Hrun].
  cbn. fold pw. unfold parser_warnings in pw. fold pw.
  rewrite <- app_assoc. cbn.
  destruct (Nat.ltb 0 (length pw)); reflexivity.
Qed.

Lemma Exec_batch_fails :
  forall tk se sql p stmts w1 pre si post rss wi rs e wf,
    parses E tk se sql p stmts w1 ->
    stmts = pre ++ si :: post ->
    succeed_in_order E se pre w1 rss wi ->
    ExecuteStmt E se si wi = ((rs, Some e), wf) ->
    Exec E tk sql [] p =
    (Returns (None, Some (errors.Trace e)),
     mkProcess (AppendError (StmtCtx wf se) e wf) (testKitIDGenerator p)
               (calls p ++ CallParse se sql :: map (CallExecuteStmt se) (pre ++ [si]))).
Proof.
  intros tk se sql p stmts w1 pre si post rss wi rs e wf (Hse & Hparse & Hlen) -> Hrun Hfail.
  unfold Exec. cbn [length Nat.eqb]. run_step. rewrite Hse. cbn. rewrite Hparse. cbn.
  apply Nat.leb_le in Hlen. rewrite Hlen. cbn.
  erewrite Exec_loop_fails; [ | exact Hse | exact Hrun | exact Hfail].
  cbn. rewrite <- app_assoc. reflexivity.
Qed.

Lemma StmtCtx_AppendWarnings :
  forall (sc : StmtCtxRef) (warns : list SQLWarn) (w : World),
    StmtCtx (AppendWarnings sc warns w) = StmtCtx w.
Proof. reflexivity. Qed.

Lemma GetWarnings_AppendWarnings :
  forall (sc : StmtCtxRef) (warns : list SQLWarn) (w : World),
    GetWarnings sc (AppendWarnings sc warns w) = GetWarnings sc w ++ warns.
Proof.
  intros sc warns w. unfold GetWarnings, AppendWarnings, update. cbn.
  rewrite Nat.eqb_refl. reflexivity.
Qed.

Lemma sc_errors_AppendError :
  forall (sc : StmtCtxRef) (e : error) (w : World),
    sc_errors (ctxs (AppendError sc e w) sc) = sc_errors (ctxs w sc) ++ [e].
Proof.
  intros sc e w. unfold AppendError, update. cbn.
  rewrite Nat.eqb_refl. reflexivity.
Qed.

(** C2. [Exec] without arguments executes the statements the text parses
    into one after the other, in order.  If every statement succeeds it
    returns the record set of the first one; if a statement fails, no
    later statement is executed and it returns that error, traced. *)
Theorem Exec_executes_statements_in_order :
  forall tk se sql p stmts w1,
    parses E tk se sql p stmts w1 ->
    (forall rss wn,
       succeed_in_order E se stmts w1 rss wn ->
       exists p',
         Exec E tk sql [] p = (Returns (hd None rss, None), p') /\
         calls p' = calls p ++ CallParse se sql :: map (CallExecuteStmt se) stmts) /\
    (forall pre si post rss wi rs e wf,
       stmts = pre ++ si :: post ->
       succeed_in_order E se pre w1 rss wi ->
       ExecuteStmt E se si wi = ((rs, Some e), wf) ->
       exists p',
         Exec E tk sql [] p = (Returns (None, Some (errors.Trace e)), p') /\
         errors.Cause (errors.Trace e) = errors.Cause e /\
         calls p' =
         calls p ++ CallParse se sql :: map (CallExecuteStmt se) (pre ++ [si])).
Proof.
  intros tk se sql p stmts w1 Hparses. split.
  - intros rss wn Hrun.
    eexists. split; [apply Exec_batch_succeeds; eassumption | reflexivity].
  - intros pre si post rss wi rs e wf Hstmts Hrun Hfail.
    eexists. split; [eapply Exec_batch_fails; eassumption | ].
    split; [apply Cause_Trace | reflexivity].
Qed.

(** C3, amended.  When parsing and every statement of the batch succeed,
    the warnings parsing added to the statement context are appended to
    the session's warning list when [Exec] returns. *)
Theorem Exec_appends_parser_warnings :
  forall tk se sql p stmts w1 rss wn,
    parses E tk se sql p stmts w1 ->
    succeed_in_order E se stmts w1 rss wn ->
    exists p',
      Exec E tk sql [] p = (Returns (hd None rss, None), p') /\
      GetWarnings (StmtCtx (world p') se) (world p') =
      GetWarnings (StmtCtx wn se) wn
      ++ parser_warnings (StmtCtx (world p) se) (world p) w1.
Proof.
  intros tk se sql p stmts w1 rss wn Hparses Hrun.
  eexists. split; [apply Exec_batch_succeeds; eassumption | ].
  cbn [world].
  destruct (parser_warnings (StmtCtx (world p) se) (world p) w1) as [|warn pw] eqn:Hpw.
  - cbn. rewrite app_nil_r. reflexivity.
  - cbn [length]. replace (Nat.ltb 0 (S (length pw))) with true by reflexivity.
    rewrite StmtCtx_AppendWarnings. apply GetWarnings_AppendWarnings.
Qed.

(** C9. When a statement of the batch fails with error [e], [Exec]
    appends [e] to the error list of the session's statement context and
    returns no record set, whatever the earlier statements returned. *)
Theorem Exec_failed_batch_records_error :
  forall tk se sql p stmts w1 pre si post rss wi rs e wf,
    parses E tk se sql p stmts w1 ->
    stmts = pre ++ si :: post ->
    succeed_in_order E se pre w1 rss wi ->
    ExecuteStmt E se si wi = ((rs, Some e), wf) ->
    exists p',
      Exec E tk sql [] p = (Returns (None, Some (errors.Trace e)), p') /\
      world p' = AppendError (StmtCtx wf se) e wf /\
      sc_errors (ctxs (world p') (StmtCtx (world p') se)) =
      sc_errors (ctxs wf (StmtCtx wf se)) ++ [e].
Proof.
  intros tk se sql p stmts w1 pre si post rss wi rs e wf Hparses Hstmts Hrun Hfail.
  eexists. split; [eapply Exec_batch_fails; eassumption | ].
  cbn [world]. split; [reflexivity | ].
  apply sc_errors_AppendError.
Qed.

(** *** Exec with arguments: prepare, execute, drop *)

Lemma Exec_prepared_execute_error :
  forall tk se sql args p stmtID w1 rs e w2,
    session tk = Some se ->
    args <> [] ->
    PrepareStmt E se sql (world p) = ((stmtID, None), w1) ->
    ExecutePreparedStmt E se stmtID (map (NewDatum E) args) w1 = ((rs, Some e), w2) ->
    Exec E tk sql args p =
    (Returns (None, Some (errors.Trace e)),
     mkProcess w2 (testKitIDGenerator p)
               (calls p ++ [CallPrepareStmt se sql;
                            CallExecutePreparedStmt se stmtID (map (NewDatum E) args)])).
Proof.
  intros tk se sql args p stmtID w1 rs e w2 Hse Hargs Hprep Hexec.
  unfold Exec. destruct args as [|a args]; [contradiction | ].
  cbn [map] in Hexec. cbn [length Nat.eqb]. run_step. rewrite Hse. cbn. rewrite Hprep. cbn.
  rewrite Hexec. cbn. rewrite <- app_assoc. reflexivity.
Qed.

Lemma Exec_prepared_executed :
  forall tk se sql args p stmtID w1 rs w2 derr w3,
    session tk = Some se ->
    args <> [] ->
    PrepareStmt E se sql (world p) = ((stmtID, None), w1) ->
    ExecutePreparedStmt E se stmtID (map (NewDatum E) args) w1 = ((rs, None), w2) ->
    DropPreparedStmt E se stmtID w2 = (derr, w3) ->
    Exec E tk sql args p =
    (Returns (match derr with
              | Some e => (None, Some (errors.Trace e))
              | None => (rs, None)
              end),
     mkProcess w3 (testKitIDGenerator p)
               (calls p ++ [CallPrepareStmt se sql;
                            CallExecutePreparedStmt se stmtID (map (NewDatum E) args);
                            CallDropPreparedStmt se stmtID])).
Proof.
  intros tk se sql args p stmtID w1 rs w2 derr w3 Hse Hargs Hprep Hexec Hdrop.
  unfold Exec. destruct args as [|a args]; [contradiction | ].
  cbn [map] in Hexec. cbn [length Nat.eqb]. run_step. rewrite Hse. cbn. rewrite Hprep. cbn.
  rewrite Hexec. cbn. rewrite Hdrop. cbn. rewrite <- !app_assoc.
  destruct derr; reflexivity.
Qed.

(** C10. When [PrepareStmt] and [ExecutePreparedStmt] succeed and
    [DropPreparedStmt] returns an error, [Exec] returns no record set
    together with that error, traced; the record set that was produced is
    not returned and [Exec] does not close it. *)
Theorem Exec_drop_error_hides_record_set :
  forall tk se sql args p stmtID w1 rs w2 e w3,
    session tk = Some se ->
    args <> [] ->
    PrepareStmt E se sql (world p) = ((stmtID, None), w1) ->
    ExecutePreparedStmt E se stmtID (map (NewDatum E) args) w1 = ((rs, None), w2) ->
    DropPreparedStmt E se stmtID w2 = (Some e, w3) ->
    exists p',
      Exec E tk sql args p = (Returns (None, Some (errors.Trace e)), p') /\
      errors.Cause (errors.Trace e) = errors.Cause e /\
      world p' = w3 /\
      calls p' =
      calls p ++ [CallPrepareStmt se sql;
                  CallExecutePreparedStmt se stmtID (map (NewDatum E) args);
                  CallDropPreparedStmt se stmtID].
Proof.
  intros tk se sql args p stmtID w1 rs w2 e w3 Hse Hargs Hprep Hexec Hdrop.
  eexists. split.
  - rewrite (Exec_prepared_executed tk sql p Hse Hargs Hprep Hexec Hdrop). reflexivity.
  - split; [apply Cause_Trace | ]. split; reflexivity.
Qed.

End ExecBatch.

(** *** The assertion helpers *)

Section Assertions.

Context {StmtNode RecordSet Datum Arg Storage SQLWarn ChunkRow Private : Type}.
Variable E : Engine StmtNode RecordSet Datum Arg Storage SQLWarn ChunkRow Private.

Local Abbreviation Process := (Process StmtNode RecordSet Datum Storage SQLWarn Private).
Local Abbreviation M := (M StmtNode RecordSet Datum Storage SQLWarn Private).

(** C4. After [Exec] has run the statement, [MustGetErrCode] passes
    exactly when [Exec] returned an error whose cause is a [*terror.Error]
    with the expected SQL error code; in every other case (no error,
    another kind of error, another code) it stops the test. *)
Theorem MustGetErrCode_passes_iff :
  forall tk sql errCode p rs err p1,
    Exec E tk sql [] p = (Returns (rs, err), p1) ->
    (MustGetErrCode E tk sql errCode p = (Returns tt, p1) <->
     exists e te,
       err = Some e /\ errors.Cause e = TError te /\
       mysql.Code (ToSQLError E te) = errCode) /\
    (MustGetErrCode E tk sql errCode p = (Returns tt, p1) \/
     MustGetErrCode E tk sql errCode p = (FailNow, p1)).
Proof.
  intros tk sql errCode p rs err p1 HExec.
  unfold MustGetErrCode, bind. rewrite HExec.
  destruct err as [e|]; cbn.
  - destruct (errors.Cause e) as [te|msg|cause] eqn:Hcause; cbn.
    + unfold require_Equalf.
      destruct (Z.eqb_spec errCode (mysql.Code (ToSQLError E te))) as [Heq|Hne]; cbn.
      * split; [ | left; reflexivity].
        split; [intros _; exists e, te; auto | reflexivity].
      * split; [ | right; reflexivity].
        split; [discriminate | ].
        intros (e' & te' & He & Hte & Hcode). congruence.
    + split; [ | right; reflexivity].
      split; [discriminate | ].
      intros (e' & te' & He & Hte & Hcode). congruence.
    + split; [ | right; reflexivity].
      split; [discriminate | ].
      intros (e' & te' & He & Hte & Hcode). congruence.
  - split; [ | right; reflexivity].
    split; [discriminate | ].
    intros (e' & te' & He & _). discriminate.
Qed.

(** C5, amended.  [QueryToErr] stops the test unless [Exec] succeeded
    and returned a record set; it then streams the rows, closes the
    record set, stops the test if closing fails, and otherwise returns
    exactly the error of streaming. *)
Theorem QueryToErr_returns_streaming_error :
  forall tk sql args p res err p1,
    Exec E tk sql args p = (Returns (res, err), p1) ->
    (err <> None \/ res = None -> QueryToErr E tk sql args p = (FailNow, p1)) /\
    (forall rs rows resErr w2 cerr w3,
       err = None ->
       res = Some rs ->
       GetRows4Test E (session tk) (Some rs) (world p1) = ((rows, resErr), w2) ->
       Close E rs w2 = (cerr, w3) ->
       QueryToErr E tk sql args p =
       (match cerr with
        | None => Returns resErr
        | Some _ => FailNow
        end,
        mkProcess w3 (testKitIDGenerator p1)
                  (calls p1 ++ [CallGetRows4Test (session tk) (Some rs); CallClose rs]))).
Proof.
  intros tk sql args p res err p1 HExec. split.
  - intros Hbad. unfold QueryToErr, bind. rewrite HExec.
    destruct err as [e|]; [reflexivity | ].
    destruct res as [rs|]; [ | reflexivity].
    destruct Hbad; congruence.
  - intros rs rows resErr w2 cerr w3 -> -> Hrows Hclose.
    unfold QueryToErr, bind. rewrite HExec. cbn.
    unfold call. rewrite Hrows. cbn. rewrite Hclose. cbn.
    rewrite <- app_assoc. destruct cerr; reflexivity.
Qed.

(** The loops of [HasPlan] and [MustUseIndex] look for [needle] in
    column [k] of each row. *)
Lemma contains_loop_true_iff :
  forall (k : nat) (needle : string) (loop : list (list string) -> M bool),
    (forall p, loop [] p = (Returns false, p)) ->
    (forall row rest p,
       loop (row :: rest) p =
       match nth_error row k with
       | None => (Panic, p)
       | Some c => if strings.Contains c needle then (Returns true, p) else loop rest p
       end) ->
    forall rows p,
      rectangular rows ->
      (fst (loop rows p) = Returns true <->
       exists row c, In row rows /\ nth_error row k = Some c /\ is_substring needle c).
Proof.
  intros k needle loop Hnil Hcons rows p. induction rows as [|row rest IH]; intros Hrect.
  - rewrite Hnil. cbn. split; [discriminate | intros (row & c & [] & _)].
  - rewrite Hcons. destruct Hrect as [n Hall].
    inversion Hall as [|? ? Hrow Hrest]; subst.
    destruct (nth_error row k) as [c|] eqn:Hk.
    + destruct (strings.Contains c needle) eqn:Hc.
      * cbn. split; [intros _ | reflexivity].
        exists row, c. split; [left; reflexivity | ].
        split; [exact Hk | apply Contains_spec; exact Hc].
      * rewrite IH by (exists (length row); exact Hrest).
        split; intros (row' & c' & Hin & Hk' & Hsub).
        -- exists row', c'. split; [right; exact Hin | auto].
        -- destruct Hin as [<-|Hin]; [ | exists row', c'; auto].
           rewrite Hk in Hk'. inversion Hk'; subst c'.
           apply Contains_spec in Hsub. congruence.
    + cbn. split; [discriminate | ].
      intros (row' & c' & Hin & Hk' & _).
      apply nth_error_None in Hk.
      assert (length row' = length row) as Hlen.
      { destruct Hin as [<-|Hin]; [reflexivity | ].
        rewrite Forall_forall in Hrest. apply Hrest. exact Hin. }
      assert (nth_error row' k = None) as Hnone by (apply nth_error_None; lia).
      congruence.
Qed.

Lemma contains_loop_returns :
  forall (k : nat) (needle : string) (loop : list (list string) -> M bool),
    (forall p, loop [] p = (Returns false, p)) ->
    (forall row rest p,
       loop (row :: rest) p =
       match nth_error row k with
       | None => (Panic, p)
       | Some c => if strings.Contains c needle then (Returns true, p) else loop rest p
       end) ->
    forall rows p,
      Forall (fun row => k < length row) rows ->
      exists b, loop rows p = (Returns b, p).
Proof.
  intros k needle loop Hnil Hcons rows p Hall. induction Hall as [|row rest Hrow Hrest IH].
  - exists false. apply Hnil.
  - rewrite Hcons. destruct (nth_error row k) as [c|] eqn:Hk.
    + destruct (strings.Contains c needle); [exists true; reflexivity | exact IH].
    + apply nth_error_None in Hk. lia.
Qed.

Lemma HasPlan_loop_cons :
  forall plan row rest (p : Process),
    HasPlan_loop (Datum:=Datum) (row :: rest) plan p =
    match nth_error row 0 with
    | None => (Panic, p)
    | Some c => if strings.Contains c plan then (Returns true, p)
                else HasPlan_loop rest plan p
    end.
Proof.
  intros plan row rest p. cbn [HasPlan_loop]. unfold bind, index.
  destruct (nth_error row 0) as [c|]; [ | reflexivity].
  cbn. destruct (strings.Contains c plan); reflexivity.
Qed.

Lemma MustUseIndex_loop_cons :
  forall idx row rest (p : Process),
    MustUseIndex_loop (Datum:=Datum) (row :: rest) idx p =
    match nth_error row 3 with
    | None => (Panic, p)
    | Some c => if strings.Contains c (String.append "index:" idx) then (Returns true, p)
                else MustUseIndex_loop rest idx p
    end.
Proof.
  intros idx row rest p. cbn [MustUseIndex_loop]. unfold bind, index.
  destruct (nth_error row 3) as [c|]; [ | reflexivity].
  cbn. destruct (strings.Contains c _); reflexivity.
Qed.

(** C6. [MustUseIndex] returns true exactly when some row of the result
    of "explain " + sql has "index:" + index as a substring of its 4th
    column.  The rows of a result all have the same number of columns;
    when they have at least four, [MustUseIndex] returns a boolean. *)
Theorem MustUseIndex_true_iff :
  forall tk sql idx args p,
    (forall res p1,
       MustQuery E tk (String.append "explain " sql) args p = (Returns res, p1) ->
       rectangular (rows res)) ->
    (fst (MustUseIndex E tk sql idx args p) = Returns true <->
     exists res p1,
       MustQuery E tk (String.append "explain " sql) args p = (Returns res, p1) /\
       exists row c,
         In row (rows res) /\ nth_error row 3 = Some c /\
         is_substring (String.append "index:" idx) c) /\
    (forall res p1,
       MustQuery E tk (String.append "explain " sql) args p = (Returns res, p1) ->
       Forall (fun row => 3 < length row) (rows res) ->
       exists b, MustUseIndex E tk sql idx args p = (Returns b, p1)).
Proof.
  intros tk sql idx args p Hrect.
  unfold MustUseIndex, bind.
  destruct (MustQuery E tk (String.append "explain " sql) args p) as [[res| |] p1] eqn:HQ.
  - split.
    + rewrite (contains_loop_true_iff 3 (String.append "index:" idx)
                 (fun rows => MustUseIndex_loop rows idx)
                 (fun p => eq_refl) (MustUseIndex_loop_cons idx))
        by (eapply Hrect; reflexivity).
      split.
      * intros Hex. exists res, p1. split; [reflexivity | exact Hex].
      * intros (res' & p1' & Heq & Hex). inversion Heq; subst. exact Hex.
    + intros res' p1' Heq Hall. inversion Heq; subst.
      apply (@contains_loop_returns 3 (String.append "index:" idx)
               (fun rows => MustUseIndex_loop rows idx)
               (fun p => eq_refl) (MustUseIndex_loop_cons idx)).
      exact Hall.
  - split; [ | intros res' p1' Heq; discriminate].
    cbn. split; [discriminate | intros (res' & p1' & Heq & _); discriminate].
  - split; [ | intros res' p1' Heq; discriminate].
    cbn. split; [discriminate | intros (res' & p1' & Heq & _); discriminate].
Qed.

(** C7. [HasPlan] returns true exactly when some row of the result of
    "explain " + sql contains the plan as a substring of its first
    column.  When every row has a first column, [HasPlan] returns a
    boolean. *)
Theorem HasPlan_true_iff :
  forall tk sql plan args p,
    (forall res p1,
       MustQuery E tk (String.append "explain " sql) args p = (Returns res, p1) ->
       rectangular (rows res)) ->
    (fst (HasPlan E tk sql plan args p) = Returns true <->
     exists res p1,
       MustQuery E tk (String.append "explain " sql) args p = (Returns res, p1) /\
       exists row c,
         In row (rows res) /\ nth_error row 0 = Some c /\ is_substring plan c) /\
    (forall res p1,
       MustQuery E tk (String.append "explain " sql) args p = (Returns res, p1) ->
       Forall (fun row => 0 < length row) (rows res) ->
       exists b, HasPlan E tk sql plan args p = (Returns b, p1)).
Proof.
  intros tk sql plan args p Hrect.
  unfold HasPlan, bind.
  destruct (MustQuery E tk (String.append "explain " sql) args p) as [[res| |] p1] eqn:HQ.
  - split.
    + rewrite (contains_loop_true_iff 0 plan
                 (fun rows => HasPlan_loop rows plan)
                 (fun p => eq_refl) (HasPlan_loop_cons plan))
        by (eapply Hrect; reflexivity).
      split.
      * intros Hex. exists res, p1. split; [reflexivity | exact Hex].
      * intros (res' & p1' & Heq & Hex). inversion Heq; subst. exact Hex.
    + intros res' p1' Heq Hall. inversion Heq; subst.
      apply (@contains_loop_returns 0 plan
               (fun rows => HasPlan_loop rows plan)
               (fun p => eq_refl) (HasPlan_loop_cons plan)).
      exact Hall.
  - split; [ | intros res' p1' Heq; discriminate].
    cbn. split; [discriminate | intros (res' & p1' & Heq & _); discriminate].
  - split; [ | intros res' p1' Heq; discriminate].
    cbn. split; [discriminate | intros (res' & p1' & Heq & _); discriminate].
Qed.

End Assertions.

(** *** Connection identifiers *)

Section ConnectionIDs.

Context {StmtNode RecordSet Datum Arg Storage SQLWarn ChunkRow Private : Type}.
Variable E : Engine StmtNode RecordSet Datum Arg Storage SQLWarn ChunkRow Private.

Local Abbreviation Process := (Process StmtNode RecordSet Datum Storage SQLWarn Private).
Local Abbreviation M := (M StmtNode RecordSet Datum Storage SQLWarn Private).
Local Abbreviation Call := (Call StmtNode RecordSet Datum Storage).
Local Abbreviation Op := (Op Arg Storage).

Local Open Scope Z_scope.

Lemma assigned_app :
  forall cs1 cs2 : list Call, assigned (cs1 ++ cs2) = (assigned cs1 ++ assigned cs2)%list.
Proof.
  induction cs1 as [|c cs1 IH]; intros cs2; [reflexivity | ].
  destruct c; cbn; rewrite IH; reflexivity.
Qed.

Lemma assigns_nothing_ret :
  forall (A : Type) (a : A), assigns_nothing (ret a : M A).
Proof.
  intros A a p. cbn. split; [reflexivity | ].
  exists []. rewrite app_nil_r. auto.
Qed.

Lemma assigns_nothing_failNow : forall A : Type, assigns_nothing (failNow : M A).
Proof.
  intros A p. cbn. split; [reflexivity | ].
  exists []. rewrite app_nil_r. auto.
Qed.

Lemma assigns_nothing_panic : forall A : Type, assigns_nothing (panic : M A).
Proof.
  intros A p. cbn. split; [reflexivity | ].
  exists []. rewrite app_nil_r. auto.
Qed.

Lemma assigns_nothing_bind :
  forall (A B : Type) (m : M A) (k : A -> M B),
    assigns_nothing m ->
    (forall a, assigns_nothing (k a)) ->
    assigns_nothing (bind m k).
Proof.
  intros A B m k Hm Hk p. unfold bind.
  destruct (Hm p) as (Hgen & new & Hcalls & Hnew).
  destruct (m p) as [[a| |] p1]; cbn in *.
  - destruct (Hk a p1) as (Hgen' & new' & Hcalls' & Hnew').
    split; [congruence | ].
    exists (new ++ new')%list. rewrite Hcalls', Hcalls, app_assoc.
    split; [reflexivity | ]. rewrite assigned_app, Hnew, Hnew'. reflexivity.
  - split; [exact Hgen | exists new; auto].
  - split; [exact Hgen | exists new; auto].
Qed.

Lemma assigns_nothing_gets :
  forall (A : Type) (f : World SQLWarn Private -> A), assigns_nothing (gets f : M A).
Proof.
  intros A f p. cbn. split; [reflexivity | ].
  exists []. rewrite app_nil_r. auto.
Qed.

Lemma assigns_nothing_modify :
  forall f : World SQLWarn Private -> World SQLWarn Private,
    assigns_nothing (modify f : M unit).
Proof.
  intros f p. cbn. split; [reflexivity | ].
  exists []. rewrite app_nil_r. auto.
Qed.

Lemma assigns_nothing_call :
  forall (A : Type) (c : Call) (f : World SQLWarn Private -> A * World SQLWarn Private),
    assigned [c] = [] ->
    assigns_nothing (call c f : M A).
Proof.
  intros A c f Hc p. unfold call. destruct (f (world p)) as [a w]. cbn.
  split; [reflexivity | ]. exists [c]. auto.
Qed.

Lemma assigns_nothing_receiver :
  forall (A : Type) (x : option A), assigns_nothing (receiver x : M A).
Proof.
  intros A [a|]; [apply assigns_nothing_ret | apply assigns_nothing_panic].
Qed.

Ltac quiet :=
  repeat first
    [ apply assigns_nothing_bind; [ | intros ? ]
    | apply assigns_nothing_ret
    | apply assigns_nothing_failNow
    | apply assigns_nothing_panic
    | apply assigns_nothing_gets
    | apply assigns_nothing_modify
    | apply assigns_nothing_receiver
    | apply assigns_nothing_call; reflexivity
    | match goal with
      | |- assigns_nothing (match ?x with _ => _ end) => destruct x
      | |- assigns_nothing (if ?b then _ else _) => destruct b
      | |- assigns_nothing (slice_from _ _) => unfold slice_from
      end ].

Lemma assigns_nothing_Exec_loop :
  forall tk stmts i rs0, assigns_nothing (Exec_loop E tk i stmts rs0).
Proof.
  intros tk stmts. induction stmts as [|stmt rest IH]; intros i rs0; cbn [Exec_loop].
  - quiet.
  - quiet. apply IH.
Qed.

Lemma assigns_nothing_Exec :
  forall tk sql args, assigns_nothing (Exec E tk sql args).
Proof.
  intros tk sql args. unfold Exec. quiet. apply assigns_nothing_Exec_loop.
Qed.

#[local] Arguments Inc : simpl never.

(** One step of the counter always changes it. *)
Lemma Inc_advances :
  forall c : Z, 0 <= c < 2 ^ 64 -> (c + 1) mod 2 ^ 64 <> c.
Proof.
  intros c Hc. change (2 ^ 64) with 18446744073709551616 in *.
  destruct (Z.eq_dec (c + 1) 18446744073709551616) as [Heq|Hne].
  - rewrite Heq, Z.mod_same by lia. lia.
  - rewrite Z.mod_small by lia. lia.
Qed.

(** What a step of the process may do to the counter and to the
    identifiers assigned: nothing, or one increment with at most one
    identifier assigned, the new value of the counter.  The bound on the
    counter is needed only when the step advances it. *)
Lemma newSession_assigns :
  forall (store : Storage) (p : Process),
    0 <= testKitIDGenerator p < 2 ^ 64 ->
    (testKitIDGenerator (snd (newSession E store p)) <> testKitIDGenerator p ->
     testKitIDGenerator p + 1 < 2 ^ 64) ->
    exists new,
      calls (snd (newSession E store p)) = (calls p ++ new)%list /\
      (testKitIDGenerator (snd (newSession E store p)) = testKitIDGenerator p /\
       assigned new = [] \/
       testKitIDGenerator (snd (newSession E store p)) = testKitIDGenerator p + 1 /\
       (assigned new = [] \/
        assigned new = [testKitIDGenerator (snd (newSession E store p))])).
Proof.
  intros store p H0 Hmax. pose proof (Inc_advances H0) as Hne.
  unfold newSession, bind, call, Inc in *.
  destruct (CreateSession4Test E store (world p)) as [[se err] w]. cbn in *.
  destruct err as [e|]; cbn in *.
  - exists [CallCreateSession4Test store]. split; [reflexivity | left; auto].
  - destruct se as [se|]; cbn in *; specialize (Hmax Hne);
      rewrite Z.mod_small by lia.
    + exists [CallCreateSession4Test store;
              CallSetConnectionID se (testKitIDGenerator p + 1)].
      rewrite <- app_assoc. split; [reflexivity | right; auto].
    + exists [CallCreateSession4Test store]. split; [reflexivity | right; auto].
Qed.

Lemma snd_bind_ret :
  forall (A B : Type) (m : M A) (f : A -> B) (p : Process),
    snd (bind m (fun a => ret (f a)) p) = snd (m p).
Proof.
  intros A B m f p. unfold bind, ret. destruct (m p) as [[a| |] p1]; reflexivity.
Qed.

Lemma step_assigns :
  forall (op : Op) (kits : list (TestKit Storage)) (p : Process),
    0 <= testKitIDGenerator p < 2 ^ 64 ->
    (testKitIDGenerator (snd (step E op kits p)) <> testKitIDGenerator p ->
     testKitIDGenerator p + 1 < 2 ^ 64) ->
    exists new,
      calls (snd (step E op kits p)) = (calls p ++ new)%list /\
      (testKitIDGenerator (snd (step E op kits p)) = testKitIDGenerator p /\
       assigned new = [] \/
       testKitIDGenerator (snd (step E op kits p)) = testKitIDGenerator p + 1 /\
       (assigned new = [] \/
        assigned new = [testKitIDGenerator (snd (step E op kits p))])).
Proof.
  intros op kits p H0.
  assert (exists new : list Call,
            calls p = (calls p ++ new)%list /\
            (testKitIDGenerator p = testKitIDGenerator p /\ assigned new = [] \/
             testKitIDGenerator p = testKitIDGenerator p + 1 /\
             (assigned new = [] \/ assigned new = [testKitIDGenerator p]))) as Hsame.
  { exists []. rewrite app_nil_r. split; [reflexivity | left; auto]. }
  destruct op as [store|k|k|k se|k sql args]; cbn [step]; intros Hmax.
  - pose proof (newSession_assigns store p H0) as H.
    unfold NewTestKit in *.
    rewrite <- (snd_bind_ret (newSession E store)
                  (fun se => mkTestKit store (Some se)) p) in H.
    destruct (bind (newSession E store) (fun se => ret (mkTestKit store (Some se))) p)
      as [[tk| |] p1]; exact (H Hmax).
  - destruct (nth_error kits k) as [tk|]; [ | exact Hsame].
    pose proof (newSession_assigns (store tk) p H0) as H.
    unfold RefreshSession in *.
    rewrite <- (snd_bind_ret (newSession E (store tk))
                  (fun se => mkTestKit (store tk) (Some se)) p) in H.
    destruct (bind (newSession E (store tk))
                (fun se => ret (mkTestKit (store tk) (Some se))) p)
      as [[tk'| |] p1]; exact (H Hmax).
  - destruct (nth_error kits k) as [tk|]; [ | exact Hsame].
    unfold RefreshConnectionID in *. destruct (session tk) as [se|]; [ | exact Hsame].
    pose proof (Inc_advances H0) as Hne.
    unfold bind, call, Inc in *. cbn in *. specialize (Hmax Hne).
    rewrite Z.mod_small by lia.
    exists [CallSetConnectionID se (testKitIDGenerator p + 1)].
    split; [reflexivity | right; auto].
  - destruct (nth_error kits k) as [tk|]; exact Hsame.
  - destruct (nth_error kits k) as [tk|]; [ | exact Hsame].
    destruct (assigns_nothing_Exec tk sql args p) as (Hgen & new & Hcalls & Hnew).
    cbn [snd]. exists new. split; [exact Hcalls | left; auto].
Qed.

Lemma StronglySorted_lt_NoDup :
  forall l : list Z, StronglySorted Z.lt l -> NoDup l.
Proof.
  intros l H. induction H as [|a l Hsorted IH Hall]; constructor; [ | exact IH].
  intros Hin. rewrite Forall_forall in Hall. specialize (Hall a Hin). lia.
Qed.

Lemma run_assigns :
  forall (ops : list Op) (kits : list (TestKit Storage)) (p : Process),
    0 <= testKitIDGenerator p ->
    testKitIDGenerator p + Z.of_nat (advances E ops kits p) < 2 ^ 64 ->
    exists new,
      calls (snd (run E ops kits p)) = (calls p ++ new)%list /\
      testKitIDGenerator (snd (run E ops kits p))
      = testKitIDGenerator p + Z.of_nat (advances E ops kits p) /\
      StronglySorted Z.lt (assigned new) /\
      Forall (fun id => testKitIDGenerator p < id
                        <= testKitIDGenerator (snd (run E ops kits p)))
             (assigned new).
Proof.
  intros ops. induction ops as [|op rest IH]; intros kits p H0 Hmax.
  - cbn. exists []. rewrite app_nil_r. split; [reflexivity | ].
    split; [lia | ]. split; constructor.
  - cbn [run advances] in *.
    assert (testKitIDGenerator (snd (step E op kits p)) <> testKitIDGenerator p ->
            testKitIDGenerator p + 1 < 2 ^ 64) as Hstep.
    { intros Hne. destruct (step E op kits p) as [kits1 p1]. cbn [snd] in Hne.
      apply Z.eqb_neq in Hne. rewrite Hne in Hmax. lia. }
    destruct (step_assigns op kits p ltac:(lia) Hstep) as (new1 & Hcalls1 & Hids1).
    destruct (step E op kits p) as [kits1 p1]. cbn [snd] in *.
    assert (0 <= testKitIDGenerator p1 /\
            testKitIDGenerator p1
            = testKitIDGenerator p
              + Z.of_nat (if Z.eqb (testKitIDGenerator p1) (testKitIDGenerator p)
                          then 0 else 1)) as [H1 Hadv].
    { destruct Hids1 as [[Heq _] | [Heq _]].
      - rewrite Heq, Z.eqb_refl. lia.
      - replace (Z.eqb (testKitIDGenerator p1) (testKitIDGenerator p)) with false
          by (symmetry; apply Z.eqb_neq; lia).
        lia. }
    destruct (IH kits1 p1 H1 ltac:(lia)) as (new2 & Hcalls2 & Hgen2 & Hsorted & Hbounds).
    exists (new1 ++ new2)%list.
    split; [rewrite Hcalls2, Hcalls1, app_assoc; reflexivity | ].
    split; [lia | ].
    rewrite assigned_app.
    destruct Hids1 as [[Heq ->] | [Heq [-> | ->]]]; cbn [app].
    + split; [exact Hsorted | ].
      eapply Forall_impl; [ | exact Hbounds]. cbn. intros id Hid. lia.
    + split; [exact Hsorted | ].
      eapply Forall_impl; [ | exact Hbounds]. cbn. intros id Hid. lia.
    + split.
      * constructor; [exact Hsorted | ].
        eapply Forall_impl; [ | exact Hbounds]. cbn. intros id Hid. lia.
      * constructor; [lia | ].
        eapply Forall_impl; [ | exact Hbounds]. cbn. intros id Hid. lia.
Qed.

(** C8. Every connection identifier the harness assigns (in
    [NewTestKit], [RefreshSession] and [RefreshConnectionID]) is a value
    of the one counter [testKitIDGenerator], which only these steps
    advance.  Over any run of a test process, on any harnesses, in which
    the 64-bit counter is advanced fewer times than it takes to wrap
    around, the identifiers assigned are strictly increasing, none is
    assigned twice, and each lies between the value of the counter before
    the run (excluded) and after it (included). *)
Theorem connection_ids_strictly_increasing :
  forall (ops : list Op) (kits : list (TestKit Storage)) (p : Process),
    0 <= testKitIDGenerator p ->
    testKitIDGenerator p + Z.of_nat (advances E ops kits p) < 2 ^ 64 ->
    exists new,
      calls (snd (run E ops kits p)) = (calls p ++ new)%list /\
      StronglySorted Z.lt (assigned new) /\
      NoDup (assigned new) /\
      Forall (fun id => testKitIDGenerator p < id
                        <= testKitIDGenerator (snd (run E ops kits p)))
             (assigned new).
Proof.
  intros ops kits p H0 Hmax.
  destruct (run_assigns ops kits p H0 Hmax) as (new & Hcalls & _ & Hsorted & Hbounds).
  exists new. split; [exact Hcalls | ]. split; [exact Hsorted | ].
  split; [apply StronglySorted_lt_NoDup; exact Hsorted | exact Hbounds].
Qed.

End ConnectionIDs.

(* ===================================================================== *)
(** ** Runs on the small engine                                          *)
(* ===================================================================== *)

Local Open Scope string_scope.

(** C1. With arguments, when [ExecutePreparedStmt] fails, [Exec] returns
    at once: [DropPreparedStmt] is not called and the statement stays
    prepared in the engine. *)
Theorem Exec_execute_error_leaves_stmt_prepared :
  let r := Exec Mock.engine Mock.tk0 "fail ?" ["1"] Mock.process0 in
  fst r = Returns (None, Some (withStack Mock.execError)) /\
  calls (snd r) = [CallPrepareStmt 0 "fail ?"; CallExecutePreparedStmt 0 1 ["1"]] /\
  ~ In (CallDropPreparedStmt 0 1) (calls (snd r)) /\
  Mock.prepared (private (world (snd r))) = [(1%Z, "fail ?")].
Proof.
  cbv zeta. split; [reflexivity | ].
  split; [reflexivity | ].
  split; [ | reflexivity].
  cbn. intros [H | [H | []]]; discriminate.
Qed.

(** The same call without the failure: the statement is dropped. *)
Example Exec_success_drops_stmt :
  let r := Exec Mock.engine Mock.tk0 "select ?" ["1"] Mock.process0 in
  fst r = Returns (Some "select ?", None) /\
  calls (snd r) = [CallPrepareStmt 0 "select ?"; CallExecutePreparedStmt 0 1 ["1"];
                   CallDropPreparedStmt 0 1] /\
  Mock.prepared (private (world (snd r))) = [].
Proof.
  cbv zeta. repeat split; reflexivity.
Qed.

Lemma Exec_executes_statements_in_order_witness :
  parses Mock.engine Mock.tk0 0 "select 1;set x;select 2" Mock.process0
         ["select 1"; "set x"; "select 2"] Mock.world0 /\
  (exists p',
     Exec Mock.engine Mock.tk0 "select 1;set x;select 2" [] Mock.process0 =
     (Returns (Some "select 1", None), p') /\
     calls p' = [CallParse 0 "select 1;set x;select 2"; CallExecuteStmt 0 "select 1";
                 CallExecuteStmt 0 "set x"; CallExecuteStmt 0 "select 2"]) /\
  parses Mock.engine Mock.tk0 0 "select 1;fail;select 2" Mock.process0
         ["select 1"; "fail"; "select 2"] Mock.world0 /\
  (exists p',
     Exec Mock.engine Mock.tk0 "select 1;fail;select 2" [] Mock.process0 =
     (Returns (None, Some (withStack Mock.execError)), p') /\
     calls p' = [CallParse 0 "select 1;fail;select 2"; CallExecuteStmt 0 "select 1";
                 CallExecuteStmt 0 "fail"]).
Proof.
  assert (parses Mock.engine Mock.tk0 0 "select 1;set x;select 2" Mock.process0
            ["select 1"; "set x"; "select 2"] Mock.world0) as Hok
    by (repeat split; apply le_n).
  assert (parses Mock.engine Mock.tk0 0 "select 1;fail;select 2" Mock.process0
            ["select 1"; "fail"; "select 2"] Mock.world0) as Hfail
    by (repeat split; apply le_n).
  split; [exact Hok | ]. split; [ | split; [exact Hfail | ]].
  - destruct (Exec_executes_statements_in_order Hok) as [Hall _].
    eapply (Hall [Some "select 1"; None; Some "select 2"]).
    repeat (eapply succeed_cons; [reflexivity | ]). apply succeed_nil.
  - destruct (Exec_executes_statements_in_order Hfail) as [_ Hstop].
    destruct (Hstop ["select 1"] "fail" ["select 2"] [Some "select 1"]
                    (Mock.ResetContextOfStmt 0 Mock.world0) None Mock.execError
                    (Mock.ResetContextOfStmt 0 (Mock.ResetContextOfStmt 0 Mock.world0)))
      as (p' & HExec & _ & Hcalls).
    + reflexivity.
    + eapply succeed_cons; [reflexivity | apply succeed_nil].
    + reflexivity.
    + exists p'. split; [exact HExec | exact Hcalls].
Defined.

(** C3 as stated fails: parsing adds a warning, the second statement
    fails, and the warning is not in the session's warning list when
    [Exec] returns. *)
Lemma Exec_failed_batch_loses_parser_warnings :
  let sql := "select deprecated 1;fail" in
  let r := Exec Mock.engine Mock.tk0 sql [] Mock.process0 in
  parser_warnings 0 Mock.world0 (snd (Mock.Parse 0 sql Mock.world0))
  = ["deprecated syntax"] /\
  fst r = Returns (None, Some (withStack Mock.execError)) /\
  ~ In "deprecated syntax" (GetWarnings (StmtCtx (world (snd r)) 0) (world (snd r))).
Proof.
  cbv zeta. split; [reflexivity | ]. split; [reflexivity | ].
  cbn. intros [].
Qed.

Lemma Exec_appends_parser_warnings_witness :
  parses Mock.engine Mock.tk0 0 "select deprecated 1;select 2" Mock.process0
         ["select deprecated 1"; "select 2"]
         (AppendWarnings 0 ["deprecated syntax"] Mock.world0) /\
  exists p',
    Exec Mock.engine Mock.tk0 "select deprecated 1;select 2" [] Mock.process0 =
    (Returns (Some "select deprecated 1", None), p') /\
    GetWarnings (StmtCtx (world p') 0) (world p') = ["deprecated syntax"].
Proof.
  assert (parses Mock.engine Mock.tk0 0 "select deprecated 1;select 2" Mock.process0
            ["select deprecated 1"; "select 2"]
            (AppendWarnings 0 ["deprecated syntax"] Mock.world0)) as Hok
    by (repeat split; apply le_S, le_n).
  split; [exact Hok | ].
  destruct (Exec_appends_parser_warnings
              (rss:=[Some "select deprecated 1"; Some "select 2"])
              (wn:=Mock.ResetContextOfStmt 0
                     (Mock.ResetContextOfStmt 0
                        (AppendWarnings 0 ["deprecated syntax"] Mock.world0)))
              Hok)
    as (p' & HExec & Hwarns).
  - repeat (eapply succeed_cons; [reflexivity | ]). apply succeed_nil.
  - exists p'. split; [exact HExec | exact Hwarns].
Defined.

Lemma Exec_failed_batch_records_error_witness :
  parses Mock.engine Mock.tk0 0 "select 1;fail;select 2" Mock.process0
         ["select 1"; "fail"; "select 2"] Mock.world0 /\
  exists p',
    Exec Mock.engine Mock.tk0 "select 1;fail;select 2" [] Mock.process0 =
    (Returns (None, Some (withStack Mock.execError)), p') /\
    sc_errors (ctxs (world p') (StmtCtx (world p') 0)) = [Mock.execError].
Proof.
  assert (parses Mock.engine Mock.tk0 0 "select 1;fail;select 2" Mock.process0
            ["select 1"; "fail"; "select 2"] Mock.world0) as Hfail
    by (repeat split; apply le_n).
  split; [exact Hfail | ].
  destruct (Exec_failed_batch_records_error
              (pre:=["select 1"]) "fail" ["select 2"] (rss:=[Some "select 1"])
              (wi:=Mock.ResetContextOfStmt 0 Mock.world0) (rs:=None) (e:=Mock.execError)
              (wf:=Mock.ResetContextOfStmt 0 (Mock.ResetContextOfStmt 0 Mock.world0))
              Hfail eq_refl)
    as (p' & HExec & _ & Herrors).
  - eapply succeed_cons; [reflexivity | apply succeed_nil].
  - reflexivity.
  - exists p'. split; [exact HExec | exact Herrors].
Defined.

Lemma Exec_drop_error_hides_record_set_witness :
  exists p',
    Exec Mock.engine Mock.tk0 "undroppable ?" ["1"] Mock.process0 =
    (Returns (None, Some (withStack (errorString "cannot drop"))), p') /\
    calls p' = [CallPrepareStmt 0 "undroppable ?"; CallExecutePreparedStmt 0 1 ["1"];
                CallDropPreparedStmt 0 1].
Proof.
  destruct (Exec_drop_error_hides_record_set Mock.engine Mock.tk0 (se:=0)
              "undroppable ?" (args:=["1"]) Mock.process0
              (stmtID:=1%Z) (rs:=Some "undroppable ?") (e:=errorString "cannot drop")
              eq_refl ltac:(discriminate) eq_refl eq_refl eq_refl)
    as (p' & HExec & _ & _ & Hcalls).
  exists p'. split; [exact HExec | exact Hcalls].
Defined.

Lemma MustGetErrCode_passes_iff_witness :
  fst (Exec Mock.engine Mock.tk0 "fail" [] Mock.process0)
  = Returns (None, Some (withStack Mock.execError)) /\
  fst (MustGetErrCode Mock.engine Mock.tk0 "fail" 1105 Mock.process0) = Returns tt /\
  fst (MustGetErrCode Mock.engine Mock.tk0 "fail" 1064 Mock.process0) = FailNow.
Proof.
  split; [reflexivity | ]. split.
  - destruct (MustGetErrCode_passes_iff Mock.engine Mock.tk0 "fail" 1105 Mock.process0
                (rs:=None) (err:=Some (withStack Mock.execError))
                (p1:=snd (Exec Mock.engine Mock.tk0 "fail" [] Mock.process0)) eq_refl)
      as [[_ Hpass] _].
    rewrite Hpass; [reflexivity | ].
    exists (withStack Mock.execError), (terror.mkError 1 1105 "execution failed").
    repeat split; reflexivity.
  - destruct (MustGetErrCode_passes_iff Mock.engine Mock.tk0 "fail" 1064 Mock.process0
                (rs:=None) (err:=Some (withStack Mock.execError))
                (p1:=snd (Exec Mock.engine Mock.tk0 "fail" [] Mock.process0)) eq_refl)
      as [[Hpass _] [Hyes | Hno]].
    + destruct (Hpass Hyes) as (e & te & He & Hte & Hcode).
      inversion He; subst e. cbn in Hte. inversion Hte; subst te. discriminate.
    + rewrite Hno. reflexivity.
Defined.

(** C5 as stated fails: [Exec] succeeds with a record set, streaming its
    rows gives an error, but closing the record set fails and
    [QueryToErr] stops the test instead of returning the streaming
    error. *)
Lemma QueryToErr_stops_when_Close_fails :
  let sql := "unclosable broken" in
  let r := Exec Mock.engine Mock.tk0 sql [] Mock.process0 in
  fst r = Returns (Some sql, None) /\
  snd (fst (GetRows4Test Mock.engine (Some 0) (Some sql) (world (snd r))))
  = Some (errorString "stream broken") /\
  fst (QueryToErr Mock.engine Mock.tk0 sql [] Mock.process0) = FailNow.
Proof.
  cbv zeta. repeat split; reflexivity.
Qed.

Lemma QueryToErr_returns_streaming_error_witness :
  fst (Exec Mock.engine Mock.tk0 "broken" [] Mock.process0)
  = Returns (Some "broken", None) /\
  fst (QueryToErr Mock.engine Mock.tk0 "broken" [] Mock.process0)
  = Returns (Some (errorString "stream broken")) /\
  fst (QueryToErr Mock.engine Mock.tk0 "select 1" [] Mock.process0) = Returns None /\
  fst (QueryToErr Mock.engine Mock.tk0 "set x" [] Mock.process0) = FailNow.
Proof.
  split; [reflexivity | ]. split; [ | split].
  - destruct (QueryToErr_returns_streaming_error Mock.engine Mock.tk0 "broken" []
                Mock.process0 (res:=Some "broken") (err:=None)
                (p1:=snd (Exec Mock.engine Mock.tk0 "broken" [] Mock.process0)) eq_refl)
      as [_ Hret].
    rewrite (Hret "broken" [] (Some (errorString "stream broken")) _ None _
               eq_refl eq_refl eq_refl eq_refl).
    reflexivity.
  - destruct (QueryToErr_returns_streaming_error Mock.engine Mock.tk0 "select 1" []
                Mock.process0 (res:=Some "select 1") (err:=None)
                (p1:=snd (Exec Mock.engine Mock.tk0 "select 1" [] Mock.process0)) eq_refl)
      as [_ Hret].
    rewrite (Hret "select 1" [["select 1"]] None _ None _
               eq_refl eq_refl eq_refl eq_refl).
    reflexivity.
  - destruct (QueryToErr_returns_streaming_error Mock.engine Mock.tk0 "set x" []
                Mock.process0 (res:=None) (err:=None)
                (p1:=snd (Exec Mock.engine Mock.tk0 "set x" [] Mock.process0)) eq_refl)
      as [Hstop _].
    rewrite Hstop; [reflexivity | right; reflexivity].
Defined.

Lemma MustUseIndex_true_iff_witness :
  fst (MustQuery Mock.engine Mock.tk0 "explain TableReader_5,10,root,index:idx_k" []
         Mock.process0)
  = Returns (mkResult [["explain TableReader_5"; "10"; "root"; "index:idx_k"]]) /\
  fst (MustUseIndex Mock.engine Mock.tk0 "TableReader_5,10,root,index:idx_k" "idx_k" []
         Mock.process0)
  = Returns true.
Proof.
  split; [reflexivity | ].
  destruct (MustUseIndex_true_iff Mock.engine Mock.tk0
              "TableReader_5,10,root,index:idx_k" "idx_k" [] Mock.process0)
    as [[_ Hfound] _].
  - intros res p1 HQ. inversion HQ; subst. exists 4. repeat constructor.
  - apply Hfound. eexists. eexists. split; [reflexivity | ].
    exists ["explain TableReader_5"; "10"; "root"; "index:idx_k"], "index:idx_k".
    split; [left; reflexivity | ]. split; [reflexivity | ].
    exists "", "". reflexivity.
Defined.

Lemma HasPlan_true_iff_witness :
  fst (MustQuery Mock.engine Mock.tk0 "explain TableFullScan_4,1,cop,table:t" []
         Mock.process0)
  = Returns (mkResult [["explain TableFullScan_4"; "1"; "cop"; "table:t"]]) /\
  fst (HasPlan Mock.engine Mock.tk0 "TableFullScan_4,1,cop,table:t" "TableFullScan" []
         Mock.process0)
  = Returns true.
Proof.
  split; [reflexivity | ].
  destruct (HasPlan_true_iff Mock.engine Mock.tk0
              "TableFullScan_4,1,cop,table:t" "TableFullScan" [] Mock.process0)
    as [[_ Hfound] _].
  - intros res p1 HQ. inversion HQ; subst. exists 4. repeat constructor.
  - apply Hfound. eexists. eexists. split; [reflexivity | ].
    exists ["explain TableFullScan_4"; "1"; "cop"; "table:t"], "explain TableFullScan_4".
    split; [left; reflexivity | ]. split; [reflexivity | ].
    exists "explain ", "_4". reflexivity.
Defined.

Lemma connection_ids_strictly_increasing_witness :
  let ops := [OpNewTestKit true; OpRefreshSession 0; OpNewTestKit false;
              OpRefreshConnectionID 0; OpExec 0 "select 1" []; OpNewTestKit true] in
  advances Mock.engine ops [] Mock.process0 = 4 /\
  assigned (calls (snd (run Mock.engine ops [] Mock.process0))) = [1; 2; 3; 4]%Z /\
  exists new,
    calls (snd (run Mock.engine ops [] Mock.process0)) = (calls Mock.process0 ++ new)%list /\
    StronglySorted Z.lt (assigned new) /\
    NoDup (assigned new) /\
    Forall (fun id => testKitIDGenerator Mock.process0 < id
                      <= testKitIDGenerator (snd (run Mock.engine ops [] Mock.process0)))%Z
           (assigned new).
Proof.
  cbv zeta. split; [reflexivity | ]. split; [reflexivity | ].
  apply (connection_ids_strictly_increasing Mock.engine); reflexivity.
Defined.

(* ===================================================================== *)
(** ** More properties of Exec                                           *)
(* ===================================================================== *)

Section ExecPaths.

Context {StmtNode RecordSet Datum Arg Storage SQLWarn ChunkRow Private : Type}.
Variable E : Engine StmtNode RecordSet Datum Arg Storage SQLWarn ChunkRow Private.

Local Abbreviation Process := (Process StmtNode RecordSet Datum Storage SQLWarn Private).
Local Abbreviation World := (World SQLWarn Private).

#[local] Arguments GetWarnings : simpl never.
#[local] Arguments AppendWarnings : simpl never.
#[local] Arguments AppendError : simpl never.
#[local] Arguments Nat.ltb : simpl never.
#[local] Arguments Nat.leb : simpl never.

Ltac exec_step :=
  unfold bind, ret, call, gets, modify, receiver, slice_from; cbn.

(** X1. When the text does not parse, [Exec] returns the parse error,
    traced, and no statement is executed: the only engine call is
    [Parse], whatever statements [Parse] returned beside the error. *)
Theorem Exec_parse_error_executes_nothing :
  forall (tk : TestKit Storage) (se : SessionRef) (sql : string) (p : Process)
         (stmts : list StmtNode) (e : error) (w1 : World),
    session tk = Some se ->
    Parse E se sql (world p) = ((stmts, Some e), w1) ->
    Exec E tk sql [] p =
    (Returns (None, Some (errors.Trace e)),
     mkProcess w1 (testKitIDGenerator p) (calls p ++ [CallParse se sql])%list).
Proof.
  intros tk se sql p stmts e w1 Hse Hparse.
  unfold Exec. cbn [length Nat.eqb]. exec_step. rewrite Hse. cbn.
  rewrite Hparse. reflexivity.
Qed.

(** X2. With arguments, when [PrepareStmt] fails, [Exec] returns that
    error, traced; nothing is executed and nothing is dropped. *)
Theorem Exec_prepare_error_executes_nothing :
  forall (tk : TestKit Storage) (se : SessionRef) (sql : string) (args : list Arg)
         (p : Process) (stmtID : Z) (e : error) (w1 : World),
    session tk = Some se ->
    args <> [] ->
    PrepareStmt E se sql (world p) = ((stmtID, Some e), w1) ->
    Exec E tk sql args p =
    (Returns (None, Some (errors.Trace e)),
     mkProcess w1 (testKitIDGenerator p) (calls p ++ [CallPrepareStmt se sql])%list).
Proof.
  intros tk se sql args p stmtID e w1 Hse Hargs Hprep.
  unfold Exec. destruct args as [|a args]; [contradiction | ].
  cbn [length Nat.eqb]. exec_step. rewrite Hse. cbn. rewrite Hprep. reflexivity.
Qed.

(** X3. With arguments, when prepare, execute and drop all succeed,
    [Exec] returns the record set of the execution; every argument is
    bound through [NewDatum], in order, and the statement is dropped
    after it was executed. *)
Theorem Exec_prepared_success_drops_statement :
  forall (tk : TestKit Storage) (se : SessionRef) (sql : string) (args : list Arg)
         (p : Process) (stmtID : Z) (w1 : World) (rs : option RecordSet) (w2 w3 : World),
    session tk = Some se ->
    args <> [] ->
    PrepareStmt E se sql (world p) = ((stmtID, None), w1) ->
    ExecutePreparedStmt E se stmtID (map (NewDatum E) args) w1 = ((rs, None), w2) ->
    DropPreparedStmt E se stmtID w2 = (None, w3) ->
    Exec E tk sql args p =
    (Returns (rs, None),
     mkProcess w3 (testKitIDGenerator p)
               (calls p ++ [CallPrepareStmt se sql;
                            CallExecutePreparedStmt se stmtID (map (NewDatum E) args);
                            CallDropPreparedStmt se stmtID])%list).
Proof.
  intros tk se sql args p stmtID w1 rs w2 w3 Hse Hargs Hprep Hexec Hdrop.
  rewrite (Exec_prepared_executed E tk sql p Hse Hargs Hprep Hexec Hdrop). reflexivity.
Qed.

Lemma HasStack_Trace : forall e : error, errors.HasStack (errors.Trace e) = true.
Proof.
  intros e. unfold errors.Trace. destruct (errors.HasStack e) eqn:H; [exact H | reflexivity].
Qed.

Lemma Exec_loop_early_return :
  forall (tk : TestKit Storage) (stmts : list StmtNode) (i : nat)
         (rs0 : option RecordSet) (p p' : Process)
         (r : option RecordSet * option error),
    Exec_loop E tk i stmts rs0 p = (Returns (inl r), p') ->
    exists e, r = (None, Some (errors.Trace e)).
Proof.
  intros tk stmts. induction stmts as [|stmt rest IH]; intros i rs0 p p' r H.
  - cbn in H. discriminate.
  - cbn [Exec_loop] in H. unfold bind in H.
    destruct (receiver (session tk) p) as [[se| |] p1]; try discriminate.
    destruct (call (CallExecuteStmt se stmt) (ExecuteStmt E se stmt) p1)
      as [[[rs [e|]]| |] p2]; try discriminate.
    + destruct (receiver (session tk) p2) as [[se'| |] p3]; try discriminate.
      cbn in H. inversion H; subst. exists e. reflexivity.
    + eapply IH. exact H.
Qed.

Lemma Exec_error_shape :
  forall (tk : TestKit Storage) (sql : string) (args : list Arg) (p p' : Process)
         (rs : option RecordSet) (e : error),
    Exec E tk sql args p = (Returns (rs, Some e), p') ->
    rs = None /\ errors.HasStack e = true.
Proof.
  intros tk sql args p p' rs e H. unfold Exec in H.
  destruct (Nat.eqb (length args) 0).
  - unfold bind in H.
    destruct (receiver (session tk) p) as [[se| |] p1]; try discriminate.
    destruct (gets (fun w => StmtCtx w se) p1) as [[sc| |] p2]; try discriminate.
    destruct (gets (GetWarnings sc) p2) as [[prevWarns| |] p3]; try discriminate.
    destruct (receiver (session tk) p3) as [[se'| |] p4]; try discriminate.
    destruct (call (CallParse se' sql) (Parse E se' sql) p4)
      as [[[stmts [e0|]]| |] p5]; try discriminate.
    + cbn in H. inversion H; subst. split; [reflexivity | apply HasStack_Trace].
    + destruct (gets (GetWarnings sc) p5) as [[warns| |] p6]; try discriminate.
      destruct (slice_from warns (length prevWarns) p6) as [[pw| |] p7]; try discriminate.
      destruct (Exec_loop E tk 0 stmts None p7) as [[[r|rs0]| |] p8] eqn:Hloop;
        try discriminate.
      * apply Exec_loop_early_return in Hloop as [e0 ->].
        cbn in H. inversion H; subst. split; [reflexivity | apply HasStack_Trace].
      * match type of H with
        | (let (_, _) := ?m p8 in _) = _ => destruct (m p8) as [[u| |] p9]
        end; cbn in H; discriminate.
  - unfold bind in H.
    destruct (receiver (session tk) p) as [[se| |] p1]; try discriminate.
    destruct (call (CallPrepareStmt se sql) (PrepareStmt E se sql) p1)
      as [[[stmtID [e0|]]| |] p2]; try discriminate.
    + cbn in H. inversion H; subst. split; [reflexivity | apply HasStack_Trace].
    + destruct (receiver (session tk) p2) as [[se'| |] p3]; try discriminate.
      destruct (call (CallExecutePreparedStmt se' stmtID (map (NewDatum E) args))
                  (ExecutePreparedStmt E se' stmtID (map (NewDatum E) args)) p3)
        as [[[rs1 [e1|]]| |] p4]; try discriminate.
      * cbn in H. inversion H; subst. split; [reflexivity | apply HasStack_Trace].
      * destruct (receiver (session tk) p4) as [[se''| |] p5]; try discriminate.
        destruct (call (CallDropPreparedStmt se'' stmtID) (DropPreparedStmt E se'' stmtID) p5)
          as [[[e2|]| |] p6]; try discriminate.
        cbn in H. inversion H; subst. split; [reflexivity | apply HasStack_Trace].
Qed.

(** X4. [Exec] never returns an error together with a record set: on
    every path that returns an error the record set is nil, and the
    error is traced. *)
Theorem Exec_error_has_no_record_set :
  forall (tk : TestKit Storage) (sql : string) (args : list Arg) (p p' : Process)
         (rs : option RecordSet) (e : error),
    Exec E tk sql args p = (Returns (rs, Some e), p') ->
    rs = None /\ errors.HasStack e = true.
Proof.
  exact Exec_error_shape.
Qed.

(** X5. A text that parses into no statement at all: [Exec] executes
    nothing and returns neither a record set nor an error, so [MustExec]
    passes and [MustQuery] stops the test. *)
Theorem Exec_empty_batch :
  forall (tk : TestKit Storage) (se : SessionRef) (sql : string) (p : Process) (w1 : World),
    parses E tk se sql p [] w1 ->
    exists p',
      Exec E tk sql [] p = (Returns (None, None), p') /\
      calls p' = (calls p ++ [CallParse se sql])%list /\
      MustExec E tk sql [] p = (Returns tt, p') /\
      MustQuery E tk sql [] p = (FailNow, p').
Proof.
  intros tk se sql p w1 Hparses.
  pose proof (Exec_batch_succeeds Hparses (succeed_nil E se w1)) as HExec.
  cbn [hd map] in HExec.
  eexists. split; [exact HExec | ]. split; [reflexivity | ].
  unfold MustExec, MustQuery, bind. rewrite HExec. split; reflexivity.
Qed.

(** X6. [MustExec] stops the test when [Exec] returns an error; it
    closes the record set [Exec] returned, if any, and stops the test
    when closing fails; otherwise it passes. *)
Theorem MustExec_outcome :
  forall (tk : TestKit Storage) (sql : string) (args : list Arg) (p p1 : Process)
         (res : option RecordSet) (err : option error),
    Exec E tk sql args p = (Returns (res, err), p1) ->
    (err <> None -> MustExec E tk sql args p = (FailNow, p1)) /\
    (err = None -> res = None -> MustExec E tk sql args p = (Returns tt, p1)) /\
    (forall rs cerr w2,
       err = None ->
       res = Some rs ->
       Close E rs (world p1) = (cerr, w2) ->
       MustExec E tk sql args p =
       (match cerr with
        | None => Returns tt
        | Some _ => FailNow
        end,
        mkProcess w2 (testKitIDGenerator p1) (calls p1 ++ [CallClose rs])%list)).
Proof.
  intros tk sql args p p1 res err HExec.
  unfold MustExec, bind. rewrite HExec. repeat split.
  - intros Herr. destruct err; [reflexivity | contradiction].
  - intros -> ->. reflexivity.
  - intros rs cerr w2 -> -> Hclose. cbn. unfold call. rewrite Hclose.
    destruct cerr; reflexivity.
Qed.

(** X7. [MustQuery] stops the test unless [Exec] returned a record set
    and no error; it then converts the record set with
    [ResultSetToStringSlice], stops the test if that fails, and otherwise
    returns exactly the rows of the conversion. *)
Theorem MustQuery_outcome :
  forall (tk : TestKit Storage) (sql : string) (args : list Arg) (p p1 : Process)
         (res : option RecordSet) (err : option error),
    Exec E tk sql args p = (Returns (res, err), p1) ->
    (err <> None \/ res = None -> MustQuery E tk sql args p = (FailNow, p1)) /\
    (forall rs rows0 cerr w2,
       err = None ->
       res = Some rs ->
       ResultSetToStringSlice E (session tk) (Some rs) (world p1) = ((rows0, cerr), w2) ->
       MustQuery E tk sql args p =
       (match cerr with
        | None => Returns (mkResult rows0)
        | Some _ => FailNow
        end,
        mkProcess w2 (testKitIDGenerator p1)
                  (calls p1 ++ [CallResultSetToStringSlice (session tk) (Some rs)])%list)).
Proof.
  intros tk sql args p p1 res err HExec.
  unfold MustQuery, bind. rewrite HExec. split.
  - intros Hbad. destruct err as [e|]; [reflexivity | ].
    destruct res as [rs|]; [ | reflexivity].
    destruct Hbad; congruence.
  - intros rs rows0 cerr w2 -> -> Hconv. cbn.
    unfold ResultSetToResult, ResultSetToResultWithCtx, bind, call.
    rewrite Hconv. destruct cerr; reflexivity.
Qed.

(** X8. [ExecToErr] hands out the error of [Exec] unchanged: when [Exec]
    returns an error there is no record set to close and [ExecToErr]
    returns that error; when [Exec] returns a record set, [ExecToErr]
    closes it and stops the test if closing fails. *)
Theorem ExecToErr_outcome :
  forall (tk : TestKit Storage) (sql : string) (args : list Arg) (p p1 : Process)
         (res : option RecordSet) (err : option error),
    Exec E tk sql args p = (Returns (res, err), p1) ->
    (forall e, err = Some e -> ExecToErr E tk sql args p = (Returns (Some e), p1)) /\
    (res = None -> ExecToErr E tk sql args p = (Returns err, p1)) /\
    (forall rs cerr w2,
       res = Some rs ->
       Close E rs (world p1) = (cerr, w2) ->
       ExecToErr E tk sql args p =
       (match cerr with
        | None => Returns err
        | Some _ => FailNow
        end,
        mkProcess w2 (testKitIDGenerator p1) (calls p1 ++ [CallClose rs])%list)).
Proof.
  intros tk sql args p p1 res err HExec.
  assert (res = None -> ExecToErr E tk sql args p = (Returns err, p1)) as Hnil.
  { intros ->. unfold ExecToErr, bind. rewrite HExec. reflexivity. }
  split; [ | split; [exact Hnil | ]].
  - intros e ->. destruct (Exec_error_shape _ _ _ _ HExec) as [Hres _].
    apply Hnil. exact Hres.
  - intros rs cerr w2 -> Hclose. unfold ExecToErr, bind. rewrite HExec. cbn.
    unfold call. rewrite Hclose. destruct cerr; reflexivity.
Qed.

End ExecPaths.

(* ===================================================================== *)
(** ** Properties of the other helpers                                   *)
(* ===================================================================== *)

Section HelperProperties.

Context {StmtNode RecordSet Datum Arg Storage SQLWarn ChunkRow Private : Type}.
Variable E : Engine StmtNode RecordSet Datum Arg Storage SQLWarn ChunkRow Private.
Variable ErrorString : error -> string.
Variable AffectedRows : SessionRef -> World SQLWarn Private -> Z.
Variable LastInsertID : SessionRef -> World SQLWarn Private -> Z.

Local Abbreviation Process := (Process StmtNode RecordSet Datum Storage SQLWarn Private).
Local Abbreviation M := (M StmtNode RecordSet Datum Storage SQLWarn Private).

(** X9. After [ExecToErr] has run the statement, [MustGetErrMsg] passes
    exactly when there is an error and its message is the expected
    string, character for character; otherwise it stops the test. *)
Theorem MustGetErrMsg_passes_iff :
  forall (tk : TestKit Storage) (sql errStr : string) (p p1 : Process) (err : option error),
    ExecToErr E tk sql [] p = (Returns err, p1) ->
    (MustGetErrMsg E ErrorString tk sql errStr p = (Returns tt, p1) <->
     exists e, err = Some e /\ ErrorString e = errStr) /\
    (MustGetErrMsg E ErrorString tk sql errStr p = (Returns tt, p1) \/
     MustGetErrMsg E ErrorString tk sql errStr p = (FailNow, p1)).
Proof.
  intros tk sql errStr p p1 err HExec.
  unfold MustGetErrMsg, bind. rewrite HExec.
  destruct err as [e|]; cbn.
  - unfold require_Equal_string.
    destruct (String.eqb_spec errStr (ErrorString e)) as [Heq|Hne]; cbn.
    + split; [ | left; reflexivity].
      split; [intros _; exists e; auto | reflexivity].
    + split; [ | right; reflexivity].
      split; [discriminate | intros (e' & He & Hmsg); congruence].
  - split; [ | right; reflexivity].
    split; [discriminate | intros (e' & He & _); discriminate].
Qed.

(** A loop that looks for [needle] in column [k], on rows that all have
    that column: it returns, leaves the process alone, and finds the
    needle exactly when some row has it. *)
Lemma contains_loop_wide :
  forall (k : nat) (needle : string) (loop : list (list string) -> M bool),
    (forall p, loop [] p = (Returns false, p)) ->
    (forall row rest p,
       loop (row :: rest) p =
       match nth_error row k with
       | None => (Panic, p)
       | Some c => if strings.Contains c needle then (Returns true, p) else loop rest p
       end) ->
    forall rows p,
      Forall (fun row => k < length row) rows ->
      exists b,
        loop rows p = (Returns b, p) /\
        (b = true <->
         exists row c, In row rows /\ nth_error row k = Some c /\ is_substring needle c).
Proof.
  intros k needle loop Hnil Hcons rows p Hall.
  induction Hall as [|row rest Hrow Hrest IH].
  - exists false. split; [apply Hnil | ].
    split; [discriminate | intros (row & c & [] & _)].
  - rewrite Hcons. destruct (nth_error row k) as [c|] eqn:Hk.
    + destruct (strings.Contains c needle) eqn:Hc.
      * exists true. split; [reflexivity | ]. split; [intros _ | reflexivity].
        exists row, c. split; [left; reflexivity | ].
        split; [exact Hk | apply Contains_spec; exact Hc].
      * destruct IH as (b & Hloop & Hb). exists b. split; [exact Hloop | ].
        rewrite Hb. split; intros (row' & c' & Hin & Hk' & Hsub).
        -- exists row', c'. split; [right; exact Hin | auto].
        -- destruct Hin as [<-|Hin]; [ | exists row', c'; auto].
           rewrite Hk in Hk'. inversion Hk'; subst c'.
           apply Contains_spec in Hsub. congruence.
    + apply nth_error_None in Hk. lia.
Qed.

Lemma contains_loop_pure :
  forall (k : nat) (needle : string) (loop : list (list string) -> M bool),
    (forall p, loop [] p = (Returns false, p)) ->
    (forall row rest p,
       loop (row :: rest) p =
       match nth_error row k with
       | None => (Panic, p)
       | Some c => if strings.Contains c needle then (Returns true, p) else loop rest p
       end) ->
    forall rows p, snd (loop rows p) = p.
Proof.
  intros k needle loop Hnil Hcons rows p. induction rows as [|row rest IH].
  - rewrite Hnil. reflexivity.
  - rewrite Hcons. destruct (nth_error row k) as [c|]; [ | reflexivity].
    destruct (strings.Contains c needle); [reflexivity | exact IH].
Qed.

(** X11. [HasPlan4ExplainFor] looks at the rows it is given and runs
    nothing: the process is left as it was, and on rows of equal width
    the answer is true exactly when some row has the plan inside its
    first column. *)
Theorem HasPlan4ExplainFor_true_iff :
  forall (result : Result) (plan : string) (p : Process),
    rectangular (rows result) ->
    (fst (HasPlan4ExplainFor result plan p) = Returns true <->
     exists row c,
       In row (rows result) /\ nth_error row 0 = Some c /\ is_substring plan c) /\
    snd (HasPlan4ExplainFor result plan p) = p.
Proof.
  intros result plan p Hrect. unfold HasPlan4ExplainFor. split.
  - apply (contains_loop_true_iff 0 plan (fun rows => HasPlan_loop rows plan)
             (fun p => eq_refl) (HasPlan_loop_cons (Datum:=Datum) plan)).
    exact Hrect.
  - apply (@contains_loop_pure 0 plan (fun rows => HasPlan_loop rows plan)
             (fun p => eq_refl) (HasPlan_loop_cons (Datum:=Datum) plan)).
Qed.

Lemma containGlobal_loop_cons :
  forall row rest (p : Process),
    containGlobal_loop (Datum:=Datum) (row :: rest) p =
    match nth_error row 2 with
    | None => (Panic, p)
    | Some c => if strings.Contains c "global" then (Returns true, p)
                else containGlobal_loop rest p
    end.
Proof.
  intros row rest p. cbn [containGlobal_loop]. unfold bind, index.
  destruct (nth_error row 2) as [c|]; [ | reflexivity].
  cbn. destruct (strings.Contains c _); reflexivity.
Qed.

Lemma containGlobal_wide :
  forall (rs : Result) (p : Process),
    Forall (fun row => 2 < length row) (rows rs) ->
    (mentions_global rs -> containGlobal (Datum:=Datum) rs p = (Returns true, p)) /\
    (~ mentions_global rs -> containGlobal (Datum:=Datum) rs p = (Returns false, p)).
Proof.
  intros rs p Hwide. unfold containGlobal.
  destruct (@contains_loop_wide 2 "global" (fun rows => containGlobal_loop rows)
              (fun p => eq_refl) containGlobal_loop_cons (rows rs) p Hwide)
    as (b & Hloop & Hb).
  rewrite Hloop. unfold mentions_global. split; intros H.
  - apply Hb in H. subst b. reflexivity.
  - destruct b; [exfalso; apply H, Hb; reflexivity | reflexivity].
Qed.

Lemma MustUseIndex4ExplainFor_loop_cons :
  forall idx row rest (p : Process),
    MustUseIndex4ExplainFor_loop (Datum:=Datum) (row :: rest) idx p =
    match nth_error row 3 with
    | None => (Panic, p)
    | Some c3 =>
        if strings.Contains c3 (String.append "index:" idx) then (Returns true, p)
        else match nth_error row 4 with
             | None => (Panic, p)
             | Some c4 =>
                 if strings.Contains c4 (String.append "index:" idx) then (Returns true, p)
                 else MustUseIndex4ExplainFor_loop rest idx p
             end
    end.
Proof.
  intros idx row rest p. cbn [MustUseIndex4ExplainFor_loop]. unfold bind, index.
  destruct (nth_error row 3) as [c3|]; [ | reflexivity].
  cbn -[nth_error]. destruct (strings.Contains c3 _); [reflexivity | ].
  destruct (nth_error row 4) as [c4|]; [ | reflexivity].
  cbn. destruct (strings.Contains c4 _); reflexivity.
Qed.

(** X10. [MustUseIndex4ExplainFor] runs nothing.  On rows with at least
    five columns it returns true exactly when some row has "index:" +
    index inside its 4th or its 5th column.  On a row with only four
    columns it panics as soon as the 4th column does not have it. *)
Theorem MustUseIndex4ExplainFor_outcome :
  forall (result : Result) (idx : string) (p : Process),
    (Forall (fun row => 4 < length row) (rows result) ->
     exists b,
       MustUseIndex4ExplainFor result idx p = (Returns b, p) /\
       (b = true <->
        exists row c,
          In row (rows result) /\
          (nth_error row 3 = Some c \/ nth_error row 4 = Some c) /\
          is_substring (String.append "index:" idx) c)) /\
    (forall row rest c,
       rows result = row :: rest ->
       length row = 4 ->
       nth_error row 3 = Some c ->
       MustUseIndex4ExplainFor result idx p =
       (if strings.Contains c (String.append "index:" idx) then Returns true else Panic, p)).
Proof.
  intros result idx p. unfold MustUseIndex4ExplainFor. split.
  - intros Hall. induction Hall as [|row rest Hrow Hrest IH].
    + exists false. split; [reflexivity | ].
      split; [discriminate | intros (row & c & [] & _)].
    + rewrite MustUseIndex4ExplainFor_loop_cons.
      destruct (nth_error row 3) as [c3|] eqn:H3;
        [ | apply nth_error_None in H3; lia].
      destruct (nth_error row 4) as [c4|] eqn:H4;
        [ | apply nth_error_None in H4; lia].
      destruct (strings.Contains c3 _) eqn:Hc3.
      * exists true. split; [reflexivity | ]. split; [intros _ | reflexivity].
        exists row, c3. split; [left; reflexivity | ].
        split; [left; exact H3 | apply Contains_spec; exact Hc3].
      * destruct (strings.Contains c4 _) eqn:Hc4.
        -- exists true. split; [reflexivity | ]. split; [intros _ | reflexivity].
           exists row, c4. split; [left; reflexivity | ].
           split; [right; exact H4 | apply Contains_spec; exact Hc4].
        -- destruct IH as (b & Hloop & Hb). exists b. split; [exact Hloop | ].
           rewrite Hb. split; intros (row' & c' & Hin & Hk' & Hsub).
           ++ exists row', c'. split; [right; exact Hin | auto].
           ++ destruct Hin as [<-|Hin]; [ | exists row', c'; auto].
              apply Contains_spec in Hsub.
              destruct Hk' as [Hk'|Hk']; congruence.
  - intros row rest c -> Hlen H3.
    rewrite MustUseIndex4ExplainFor_loop_cons, H3.
    destruct (strings.Contains c _); [reflexivity | ].
    assert (nth_error row 4 = None) as -> by (apply nth_error_None; lia).
    reflexivity.
Qed.

(** X12. [MustNoGlobalStats] asks for the stats_meta, stats_buckets and
    stats_histograms of the table, in this order, and stops at the first
    result that mentions "global" in its partition-name column: it then
    returns false without running the later queries.  It returns true
    when none of the three mentions it. *)
Theorem MustNoGlobalStats_outcome :
  forall (tk : TestKit Storage) (table : string) (p p1 : Process) (r1 : Result),
    MustQuery E tk (String.append "show stats_meta where table_name like '"
                      (String.append table "'")) [] p = (Returns r1, p1) ->
    Forall (fun row => 2 < length row) (rows r1) ->
    (mentions_global r1 -> MustNoGlobalStats E tk table p = (Returns false, p1)) /\
    (~ mentions_global r1 ->
     forall (r2 : Result) (p2 : Process),
       MustQuery E tk (String.append "show stats_buckets where table_name like '"
                         (String.append table "'")) [] p1 = (Returns r2, p2) ->
       Forall (fun row => 2 < length row) (rows r2) ->
       (mentions_global r2 -> MustNoGlobalStats E tk table p = (Returns false, p2)) /\
       (~ mentions_global r2 ->
        forall (r3 : Result) (p3 : Process),
          MustQuery E tk (String.append "show stats_histograms where table_name like '"
                            (String.append table "'")) [] p2 = (Returns r3, p3) ->
          Forall (fun row => 2 < length row) (rows r3) ->
          (mentions_global r3 -> MustNoGlobalStats E tk table p = (Returns false, p3)) /\
          (~ mentions_global r3 -> MustNoGlobalStats E tk table p = (Returns true, p3)))).
Proof.
  intros tk table p p1 r1 HQ1 Hw1.
  destruct (containGlobal_wide r1 p1 Hw1) as [Hyes1 Hno1].
  split.
  - intros Hg. unfold MustNoGlobalStats, bind. rewrite HQ1, (Hyes1 Hg). reflexivity.
  - intros Hg1 r2 p2 HQ2 Hw2.
    destruct (containGlobal_wide r2 p2 Hw2) as [Hyes2 Hno2].
    split.
    + intros Hg. unfold MustNoGlobalStats, bind.
      rewrite HQ1, (Hno1 Hg1), HQ2, (Hyes2 Hg). reflexivity.
    + intros Hg2 r3 p3 HQ3 Hw3.
      destruct (containGlobal_wide r3 p3 Hw3) as [Hyes3 Hno3].
      split; intros Hg; unfold MustNoGlobalStats, bind;
        rewrite HQ1, (Hno1 Hg1), HQ2, (Hno2 Hg2), HQ3.
      * rewrite (Hyes3 Hg). reflexivity.
      * rewrite (Hno3 Hg). reflexivity.
Qed.

Lemma int64_of_uint64 :
  forall v : Z,
    (0 <= v < 2 ^ 64)%Z ->
    int64 v = if (v <? 2 ^ 63)%Z then v else (v - 2 ^ 64)%Z.
Proof.
  intros v Hv. unfold int64.
  change (2 ^ 64)%Z with 18446744073709551616%Z in *.
  change (2 ^ 63)%Z with 9223372036854775808%Z in *.
  destruct (Z.ltb_spec v 9223372036854775808) as [Hlt|Hge].
  - rewrite Z.mod_small by lia. lia.
  - replace (v + 9223372036854775808)%Z
      with (v - 9223372036854775808 + 1 * 18446744073709551616)%Z by lia.
    rewrite Z.mod_add by lia. rewrite Z.mod_small by lia. lia.
Qed.

(** X13. [CheckExecResult] reads the session's affected-row count and
    last insert id, both [uint64], converts them to [int64] and compares:
    it passes exactly when both converted values equal the expected
    ones, so a value of 2^63 or more matches the negative number it
    wraps to.  It changes nothing. *)
Theorem CheckExecResult_passes_iff :
  forall (tk : TestKit Storage) (se : SessionRef) (affectedRows insertID : Z) (p : Process),
    session tk = Some se ->
    (0 <= AffectedRows se (world p) < 2 ^ 64)%Z ->
    (0 <= LastInsertID se (world p) < 2 ^ 64)%Z ->
    (CheckExecResult AffectedRows LastInsertID tk affectedRows insertID p = (Returns tt, p) <->
     (if (AffectedRows se (world p) <? 2 ^ 63)%Z then AffectedRows se (world p)
      else (AffectedRows se (world p) - 2 ^ 64)%Z) = affectedRows /\
     (if (LastInsertID se (world p) <? 2 ^ 63)%Z then LastInsertID se (world p)
      else (LastInsertID se (world p) - 2 ^ 64)%Z) = insertID) /\
    (CheckExecResult AffectedRows LastInsertID tk affectedRows insertID p = (Returns tt, p) \/
     CheckExecResult AffectedRows LastInsertID tk affectedRows insertID p = (FailNow, p)).
Proof.
  intros tk se affectedRows insertID p Hse Ha Hi.
  rewrite <- (int64_of_uint64 Ha), <- (int64_of_uint64 Hi).
  unfold CheckExecResult, Session, bind, gets, receiver, require_Equal. rewrite Hse. cbn.
  destruct (Z.eqb_spec (int64 (AffectedRows se (world p))) affectedRows) as [Ha'|Ha']; cbn.
  - destruct (Z.eqb_spec (int64 (LastInsertID se (world p))) insertID) as [Hi'|Hi']; cbn.
    + split; [ | left; reflexivity]. split; [auto | reflexivity].
    + split; [ | right; reflexivity]. split; [discriminate | intros [_ H]; contradiction].
  - split; [ | right; reflexivity]. split; [discriminate | intros [H _]; contradiction].
Qed.

End HelperProperties.

(* ===================================================================== *)
(** ** Sessions and connection identifiers, method by method             *)
(* ===================================================================== *)

Section SessionProperties.

Context {StmtNode RecordSet Datum Arg Storage SQLWarn ChunkRow Private : Type}.
Variable E : Engine StmtNode RecordSet Datum Arg Storage SQLWarn ChunkRow Private.

Local Abbreviation Process := (Process StmtNode RecordSet Datum Storage SQLWarn Private).
Local Abbreviation M := (M StmtNode RecordSet Datum Storage SQLWarn Private).
Local Abbreviation World := (World SQLWarn Private).

Local Open Scope Z_scope.

Lemma newSession_outcome :
  forall (store : Storage) (p : Process) (ose : option SessionRef) (err : option error)
         (w1 : World),
    CreateSession4Test E store (world p) = ((ose, err), w1) ->
    newSession E store p =
    match err, ose with
    | Some _, _ =>
        (FailNow,
         mkProcess w1 (testKitIDGenerator p) (calls p ++ [CallCreateSession4Test store])%list)
    | None, None =>
        (Panic,
         mkProcess w1 ((testKitIDGenerator p + 1) mod 2 ^ 64)
                   (calls p ++ [CallCreateSession4Test store])%list)
    | None, Some se =>
        (Returns se,
         mkProcess (SetConnectionID se ((testKitIDGenerator p + 1) mod 2 ^ 64) w1)
                   ((testKitIDGenerator p + 1) mod 2 ^ 64)
                   (calls p ++ [CallCreateSession4Test store;
                                CallSetConnectionID se ((testKitIDGenerator p + 1) mod 2 ^ 64)])%list)
    end.
Proof.
  intros store p ose err w1 Hcreate.
  unfold newSession, bind, call. rewrite Hcreate.
  destruct err as [e|]; [reflexivity | ].
  destruct ose as [se|]; cbn; [ | reflexivity].
  rewrite <- app_assoc. reflexivity.
Qed.

Lemma connectionID_SetConnectionID :
  forall (se : SessionRef) (id : Z) (w : World),
    connectionID (SetConnectionID se id w) se = id /\
    forall se', se' <> se -> connectionID (SetConnectionID se id w) se' = connectionID w se'.
Proof.
  intros se id w. unfold SetConnectionID, update. cbn. split.
  - rewrite Nat.eqb_refl. reflexivity.
  - intros se' Hne. apply Nat.eqb_neq in Hne. rewrite Hne. reflexivity.
Qed.

(** X14. [NewTestKit]: when the session cannot be created the test
    stops and no identifier is taken from the counter; when it is
    created, the harness returned holds the given store and the new
    session, whose connection identifier is the next value of the
    counter, and no other session's identifier is changed. *)
Theorem NewTestKit_outcome :
  forall (store : Storage) (p : Process) (ose : option SessionRef) (err : option error)
         (w1 : World),
    CreateSession4Test E store (world p) = ((ose, err), w1) ->
    (err <> None ->
     NewTestKit E store p =
     (FailNow,
      mkProcess w1 (testKitIDGenerator p) (calls p ++ [CallCreateSession4Test store])%list)) /\
    (forall se,
       err = None ->
       ose = Some se ->
       exists p',
         NewTestKit E store p = (Returns (mkTestKit store (Some se)), p') /\
         testKitIDGenerator p' = (testKitIDGenerator p + 1) mod 2 ^ 64 /\
         connectionID (world p') se = testKitIDGenerator p' /\
         (forall se', se' <> se -> connectionID (world p') se' = connectionID w1 se') /\
         assigned (calls p') = (assigned (calls p) ++ [testKitIDGenerator p'])%list).
Proof.
  intros store p ose err w1 Hcreate. unfold NewTestKit, bind.
  rewrite (newSession_outcome store p Hcreate). split.
  - intros Herr. destruct err; [reflexivity | contradiction].
  - intros se -> ->. eexists. split; [reflexivity | ]. cbn [testKitIDGenerator world calls].
    split; [reflexivity | ].
    destruct (connectionID_SetConnectionID se ((testKitIDGenerator p + 1) mod 2 ^ 64) w1)
      as [Hse Hother].
    split; [exact Hse | ]. split; [exact Hother | ].
    rewrite assigned_app. reflexivity.
Qed.

(** X15. [RefreshSession] keeps the store of the harness and replaces
    its session by a newly created one with the next value of the
    counter as connection identifier; the session it replaces is not
    used: the result is the same whatever session the harness had.  When
    the session cannot be created the test stops. *)
Theorem RefreshSession_outcome :
  forall (tk : TestKit Storage) (p : Process) (ose : option SessionRef)
         (err : option error) (w1 : World),
    CreateSession4Test E (store tk) (world p) = ((ose, err), w1) ->
    (err <> None -> fst (RefreshSession E tk p) = FailNow) /\
    (forall se,
       err = None ->
       ose = Some se ->
       exists p',
         RefreshSession E tk p = (Returns (mkTestKit (store tk) (Some se)), p') /\
         world p' = SetConnectionID se ((testKitIDGenerator p + 1) mod 2 ^ 64) w1 /\
         connectionID (world p') se = testKitIDGenerator p') /\
    (forall old, RefreshSession E (SetSession tk old) p = RefreshSession E tk p).
Proof.
  intros tk p ose err w1 Hcreate. split; [ | split].
  - intros Herr. unfold RefreshSession, bind.
    rewrite (newSession_outcome (store tk) p Hcreate).
    destruct err; [reflexivity | contradiction].
  - intros se -> ->. unfold RefreshSession, bind.
    rewrite (newSession_outcome (store tk) p Hcreate).
    eexists. split; [reflexivity | ]. cbn [testKitIDGenerator world].
    split; [reflexivity | ].
    apply connectionID_SetConnectionID.
  - intros old. reflexivity.
Qed.

(** X16. [RefreshConnectionID] does nothing on a harness without
    session: the counter is not advanced.  On a harness with a session
    it advances the counter by one (modulo 2^64) and makes the new value
    the connection identifier of that session, leaving the identifiers of
    all other sessions as they were. *)
Theorem RefreshConnectionID_outcome :
  forall (tk : TestKit Storage) (p : Process),
    (session tk = None ->
     RefreshConnectionID (Datum:=Datum) (RecordSet:=RecordSet) (StmtNode:=StmtNode) tk p
     = (Returns tt, p)) /\
    (forall se,
       session tk = Some se ->
       exists p',
         RefreshConnectionID tk p = (Returns tt, p') /\
         testKitIDGenerator p' = (testKitIDGenerator p + 1) mod 2 ^ 64 /\
         connectionID (world p') se = testKitIDGenerator p' /\
         (forall se', se' <> se ->
                      connectionID (world p') se' = connectionID (world p) se') /\
         calls p' = (calls p ++ [CallSetConnectionID se (testKitIDGenerator p')])%list).
Proof.
  intros tk p. unfold RefreshConnectionID. split.
  - intros ->. reflexivity.
  - intros se ->. unfold bind, call, Inc. cbn.
    eexists. split; [reflexivity | ]. cbn [testKitIDGenerator world calls].
    split; [reflexivity | ].
    destruct (connectionID_SetConnectionID se ((testKitIDGenerator p + 1) mod 2 ^ 64)
                (world p)) as [Hse Hother].
    split; [exact Hse | ]. split; [exact Hother | reflexivity].
Qed.

Ltac nothing :=
  repeat first
    [ apply assigns_nothing_Exec
    | apply assigns_nothing_bind; [ | intros ? ]
    | apply assigns_nothing_ret
    | apply assigns_nothing_failNow
    | apply assigns_nothing_panic
    | apply assigns_nothing_gets
    | apply assigns_nothing_modify
    | apply assigns_nothing_receiver
    | apply assigns_nothing_call; reflexivity
    | match goal with
      | |- assigns_nothing (match ?x with _ => _ end) => destruct x
      | |- assigns_nothing (if ?b then _ else _) => destruct b
      | |- assigns_nothing (let (_, _) := ?x in _) => destruct x
      | |- assigns_nothing (index _ _) => unfold index
      end ].

Lemma assigns_nothing_HasPlan_loop :
  forall rs plan, assigns_nothing (HasPlan_loop rs plan : M bool).
Proof.
  intros rs plan. induction rs as [|row rest IH]; cbn [HasPlan_loop]; nothing. apply IH.
Qed.

Lemma assigns_nothing_MustUseIndex_loop :
  forall rs idx, assigns_nothing (MustUseIndex_loop rs idx : M bool).
Proof.
  intros rs idx. induction rs as [|row rest IH]; cbn [MustUseIndex_loop]; nothing. apply IH.
Qed.

Lemma assigns_nothing_MustQuery :
  forall tk sql args, assigns_nothing (MustQuery E tk sql args).
Proof.
  intros tk sql args.
  unfold MustQuery, ResultSetToResult, ResultSetToResultWithCtx,
    require_NoError, require_NotNil.
  nothing.
Qed.

(** X17. The methods that run statements never touch the connection
    identifiers: [Exec], [MustExec], [MustQuery], [QueryToErr],
    [ExecToErr], [HasPlan], [MustUseIndex] and [MustGetErrCode] leave
    [testKitIDGenerator] as it is and make no [SetConnectionID] call,
    however they end. *)
Theorem statements_assign_no_connection_id :
  forall (tk : TestKit Storage) (sql text : string) (args : list Arg) (errCode : Z),
    assigns_nothing (Exec E tk sql args) /\
    assigns_nothing (MustExec E tk sql args) /\
    assigns_nothing (MustQuery E tk sql args) /\
    assigns_nothing (QueryToErr E tk sql args) /\
    assigns_nothing (ExecToErr E tk sql args) /\
    assigns_nothing (HasPlan E tk sql text args) /\
    assigns_nothing (MustUseIndex E tk sql text args) /\
    assigns_nothing (MustGetErrCode E tk sql errCode).
Proof.
  intros tk sql text args errCode.
  split; [apply assigns_nothing_Exec | ].
  split; [unfold MustExec, require_NoError; nothing | ].
  split; [apply assigns_nothing_MustQuery | ].
  split; [unfold QueryToErr, require_NoError, require_NotNil; nothing | ].
  split; [unfold ExecToErr, require_NoError; nothing | ].
  split; [unfold HasPlan; apply assigns_nothing_bind;
          [apply assigns_nothing_MustQuery | intros ?; apply assigns_nothing_HasPlan_loop] | ].
  split; [unfold MustUseIndex; apply assigns_nothing_bind;
          [apply assigns_nothing_MustQuery
          | intros ?; apply assigns_nothing_MustUseIndex_loop] | ].
  unfold MustGetErrCode, require_Error, require_Truef, require_Equalf. nothing.
Qed.

End SessionProperties.

(* ===================================================================== *)
(** ** Runs of the other helpers on the small engine                     *)
(* ===================================================================== *)

Lemma Exec_parse_error_executes_nothing_witness :
  fst (Exec Mock.engine Mock.tk0 "syntax error;select 1" [] Mock.process0)
  = Returns (None, Some (withStack Mock.parseError)) /\
  calls (snd (Exec Mock.engine Mock.tk0 "syntax error;select 1" [] Mock.process0))
  = [CallParse 0 "syntax error;select 1"].
Proof.
  rewrite (Exec_parse_error_executes_nothing Mock.engine Mock.tk0 (se:=0)
             "syntax error;select 1" Mock.process0 (stmts:=[]) (e:=Mock.parseError)
             (w1:=Mock.world0) eq_refl eq_refl).
  split; reflexivity.
Defined.

Lemma Exec_prepare_error_executes_nothing_witness :
  fst (Exec Mock.engine Mock.tk0 "syntax error ?" ["1"] Mock.process0)
  = Returns (None, Some (withStack Mock.parseError)) /\
  calls (snd (Exec Mock.engine Mock.tk0 "syntax error ?" ["1"] Mock.process0))
  = [CallPrepareStmt 0 "syntax error ?"].
Proof.
  rewrite (Exec_prepare_error_executes_nothing Mock.engine Mock.tk0 (se:=0)
             "syntax error ?" (args:=["1"]) Mock.process0 (stmtID:=0%Z)
             (e:=Mock.parseError) (w1:=Mock.world0) eq_refl ltac:(discriminate) eq_refl).
  split; reflexivity.
Defined.

Lemma Exec_prepared_success_drops_statement_witness :
  fst (Exec Mock.engine Mock.tk0 "select ?, ?" ["1"; "2"] Mock.process0)
  = Returns (Some "select ?, ?", None) /\
  calls (snd (Exec Mock.engine Mock.tk0 "select ?, ?" ["1"; "2"] Mock.process0))
  = [CallPrepareStmt 0 "select ?, ?"; CallExecutePreparedStmt 0 1 ["1"; "2"];
     CallDropPreparedStmt 0 1] /\
  Mock.prepared (private (world (snd (Exec Mock.engine Mock.tk0 "select ?, ?" ["1"; "2"]
                                        Mock.process0)))) = [].
Proof.
  rewrite (Exec_prepared_success_drops_statement Mock.engine Mock.tk0 (se:=0)
             "select ?, ?" (args:=["1"; "2"]) Mock.process0 (stmtID:=1%Z)
             (rs:=Some "select ?, ?")
             eq_refl ltac:(discriminate) eq_refl eq_refl eq_refl).
  repeat split; reflexivity.
Defined.

Lemma Exec_error_has_no_record_set_witness :
  exists e,
    fst (Exec Mock.engine Mock.tk0 "select 1;fail" [] Mock.process0)
    = Returns (None, Some e) /\
    errors.HasStack e = true.
Proof.
  destruct (Exec_error_has_no_record_set Mock.engine Mock.tk0 "select 1;fail" []
              Mock.process0
              (p':=snd (Exec Mock.engine Mock.tk0 "select 1;fail" [] Mock.process0))
              (rs:=None) (e:=withStack Mock.execError) eq_refl) as [_ Hstack].
  exists (withStack Mock.execError). split; [reflexivity | exact Hstack].
Defined.

Lemma Exec_empty_batch_witness :
  parses MockHelpers.engine Mock.tk0 0 "" Mock.process0 [] Mock.world0 /\
  fst (Exec MockHelpers.engine Mock.tk0 "" [] Mock.process0) = Returns (None, None) /\
  fst (MustExec MockHelpers.engine Mock.tk0 "" [] Mock.process0) = Returns tt /\
  fst (MustQuery MockHelpers.engine Mock.tk0 "" [] Mock.process0) = FailNow.
Proof.
  assert (parses MockHelpers.engine Mock.tk0 0 "" Mock.process0 [] Mock.world0) as Hparses
    by (repeat split; apply le_n).
  split; [exact Hparses | ].
  destruct (Exec_empty_batch Hparses) as (p' & HExec & _ & HMustExec & HMustQuery).
  rewrite HExec, HMustExec, HMustQuery. repeat split; reflexivity.
Defined.

Lemma MustExec_outcome_witness :
  fst (MustExec Mock.engine Mock.tk0 "select 1" [] Mock.process0) = Returns tt /\
  Mock.closed (private (world (snd (MustExec Mock.engine Mock.tk0 "select 1" []
                                      Mock.process0)))) = ["select 1"] /\
  fst (MustExec Mock.engine Mock.tk0 "select unclosable" [] Mock.process0) = FailNow /\
  fst (MustExec Mock.engine Mock.tk0 "fail" [] Mock.process0) = FailNow.
Proof.
  destruct (MustExec_outcome Mock.engine Mock.tk0 "select 1" [] Mock.process0
              (p1:=snd (Exec Mock.engine Mock.tk0 "select 1" [] Mock.process0))
              (res:=Some "select 1") (err:=None) eq_refl) as (_ & _ & Hclose).
  rewrite (Hclose "select 1" None _ eq_refl eq_refl eq_refl).
  destruct (MustExec_outcome Mock.engine Mock.tk0 "select unclosable" [] Mock.process0
              (p1:=snd (Exec Mock.engine Mock.tk0 "select unclosable" [] Mock.process0))
              (res:=Some "select unclosable") (err:=None) eq_refl) as (_ & _ & Hclose').
  rewrite (Hclose' "select unclosable" (Some (errorString "cannot close")) _
             eq_refl eq_refl eq_refl).
  destruct (MustExec_outcome Mock.engine Mock.tk0 "fail" [] Mock.process0
              (p1:=snd (Exec Mock.engine Mock.tk0 "fail" [] Mock.process0))
              (res:=None) (err:=Some (withStack Mock.execError)) eq_refl) as (Hfail & _).
  rewrite Hfail by discriminate.
  repeat split; reflexivity.
Defined.

Lemma MustQuery_outcome_witness :
  fst (MustQuery Mock.engine Mock.tk0 "a,b|c,d" [] Mock.process0)
  = Returns (mkResult [["a"; "b"]; ["c"; "d"]]) /\
  fst (MustQuery Mock.engine Mock.tk0 "set x" [] Mock.process0) = FailNow /\
  fst (MustQuery Mock.engine Mock.tk0 "broken" [] Mock.process0) = FailNow.
Proof.
  destruct (MustQuery_outcome Mock.engine Mock.tk0 "a,b|c,d" [] Mock.process0
              (p1:=snd (Exec Mock.engine Mock.tk0 "a,b|c,d" [] Mock.process0))
              (res:=Some "a,b|c,d") (err:=None) eq_refl) as (_ & Hconv).
  rewrite (Hconv "a,b|c,d" [["a"; "b"]; ["c"; "d"]] None _ eq_refl eq_refl eq_refl).
  destruct (MustQuery_outcome Mock.engine Mock.tk0 "set x" [] Mock.process0
              (p1:=snd (Exec Mock.engine Mock.tk0 "set x" [] Mock.process0))
              (res:=None) (err:=None) eq_refl) as (Hnone & _).
  rewrite Hnone by (right; reflexivity).
  destruct (MustQuery_outcome Mock.engine Mock.tk0 "broken" [] Mock.process0
              (p1:=snd (Exec Mock.engine Mock.tk0 "broken" [] Mock.process0))
              (res:=Some "broken") (err:=None) eq_refl) as (_ & Hconv').
  rewrite (Hconv' "broken" [] (Some (errorString "stream broken")) _
             eq_refl eq_refl eq_refl).
  repeat split; reflexivity.
Defined.

Lemma ExecToErr_outcome_witness :
  fst (ExecToErr Mock.engine Mock.tk0 "select 1;fail" [] Mock.process0)
  = Returns (Some (withStack Mock.execError)) /\
  fst (ExecToErr Mock.engine Mock.tk0 "select 1" [] Mock.process0) = Returns None /\
  fst (ExecToErr Mock.engine Mock.tk0 "set x" [] Mock.process0) = Returns None.
Proof.
  destruct (ExecToErr_outcome Mock.engine Mock.tk0 "select 1;fail" [] Mock.process0
              (p1:=snd (Exec Mock.engine Mock.tk0 "select 1;fail" [] Mock.process0))
              (res:=None) (err:=Some (withStack Mock.execError)) eq_refl) as (Herr & _).
  rewrite (Herr _ eq_refl).
  destruct (ExecToErr_outcome Mock.engine Mock.tk0 "select 1" [] Mock.process0
              (p1:=snd (Exec Mock.engine Mock.tk0 "select 1" [] Mock.process0))
              (res:=Some "select 1") (err:=None) eq_refl) as (_ & _ & Hclose).
  rewrite (Hclose "select 1" None _ eq_refl eq_refl).
  destruct (ExecToErr_outcome Mock.engine Mock.tk0 "set x" [] Mock.process0
              (p1:=snd (Exec Mock.engine Mock.tk0 "set x" [] Mock.process0))
              (res:=None) (err:=None) eq_refl) as (_ & Hnil & _).
  rewrite (Hnil eq_refl).
  repeat split; reflexivity.
Defined.

Lemma MustGetErrMsg_passes_iff_witness :
  fst (ExecToErr Mock.engine Mock.tk0 "fail" [] Mock.process0)
  = Returns (Some (withStack Mock.execError)) /\
  fst (MustGetErrMsg Mock.engine MockHelpers.ErrorString Mock.tk0 "fail"
         "execution failed" Mock.process0) = Returns tt /\
  fst (MustGetErrMsg Mock.engine MockHelpers.ErrorString Mock.tk0 "fail"
         "execution" Mock.process0) = FailNow.
Proof.
  split; [reflexivity | ]. split.
  - destruct (MustGetErrMsg_passes_iff Mock.engine MockHelpers.ErrorString Mock.tk0
                "fail" "execution failed" Mock.process0
                (p1:=snd (ExecToErr Mock.engine Mock.tk0 "fail" [] Mock.process0))
                (err:=Some (withStack Mock.execError)) eq_refl) as [[_ Hpass] _].
    rewrite Hpass; [reflexivity | ].
    exists (withStack Mock.execError). split; reflexivity.
  - destruct (MustGetErrMsg_passes_iff Mock.engine MockHelpers.ErrorString Mock.tk0
                "fail" "execution" Mock.process0
                (p1:=snd (ExecToErr Mock.engine Mock.tk0 "fail" [] Mock.process0))
                (err:=Some (withStack Mock.execError)) eq_refl) as [[Hpass _] [Hyes | Hno]].
    + destruct (Hpass Hyes) as (e & He & Hmsg).
      inversion He; subst e. discriminate.
    + rewrite Hno. reflexivity.
Defined.

Lemma MustUseIndex4ExplainFor_outcome_witness :
  MustUseIndex4ExplainFor
    (mkResult [["IndexReader_6"; "10"; "root"; ""; "index:IndexRangeScan_5"];
               ["IndexRangeScan_5"; "10"; "cop"; "table:t, index:idx_k(k)"; "range:[1,1]"]])
    "idx_k" Mock.process0
  = (Returns true, Mock.process0) /\
  MustUseIndex4ExplainFor (mkResult [["TableReader_5"; "10"; "root"; "data:TableFullScan_4"]])
    "idx_k" Mock.process0
  = (Panic, Mock.process0).
Proof.
  split.
  - destruct (MustUseIndex4ExplainFor_outcome
                (mkResult [["IndexReader_6"; "10"; "root"; ""; "index:IndexRangeScan_5"];
                           ["IndexRangeScan_5"; "10"; "cop"; "table:t, index:idx_k(k)";
                            "range:[1,1]"]])
                "idx_k" Mock.process0) as [Hwide _].
    destruct Hwide as (b & Hrun & Hb).
    + repeat constructor.
    + rewrite Hrun. replace b with true; [reflexivity | ].
      symmetry. apply Hb.
      exists ["IndexRangeScan_5"; "10"; "cop"; "table:t, index:idx_k(k)"; "range:[1,1]"],
             "table:t, index:idx_k(k)".
      split; [right; left; reflexivity | ]. split; [left; reflexivity | ].
      exists "table:t, ", "(k)". reflexivity.
  - destruct (MustUseIndex4ExplainFor_outcome
                (mkResult [["TableReader_5"; "10"; "root"; "data:TableFullScan_4"]])
                "idx_k" Mock.process0) as [_ Hnarrow].
    rewrite (Hnarrow ["TableReader_5"; "10"; "root"; "data:TableFullScan_4"] []
               "data:TableFullScan_4" eq_refl eq_refl eq_refl).
    reflexivity.
Defined.

Lemma HasPlan4ExplainFor_true_iff_witness :
  HasPlan4ExplainFor (mkResult [["Projection_3"; "1"]; ["TableFullScan_4"; "1"]])
    "TableFullScan" Mock.process0
  = (Returns true, Mock.process0).
Proof.
  destruct (HasPlan4ExplainFor_true_iff
              (mkResult [["Projection_3"; "1"]; ["TableFullScan_4"; "1"]])
              "TableFullScan" Mock.process0) as [[_ Hfound] Hpure].
  - exists 2. repeat constructor.
  - rewrite (surjective_pairing (HasPlan4ExplainFor _ _ _)), Hpure, Hfound;
      [reflexivity | ].
    exists ["TableFullScan_4"; "1"], "TableFullScan_4".
    split; [right; left; reflexivity | ]. split; [reflexivity | ].
    exists "", "_4". reflexivity.
Defined.

Lemma MustNoGlobalStats_outcome_witness :
  fst (MustNoGlobalStats Mock.engine Mock.tk0 "t,p0,global" Mock.process0) = Returns false /\
  calls (snd (MustNoGlobalStats Mock.engine Mock.tk0 "t,p0,global" Mock.process0))
  = [CallParse 0 "show stats_meta where table_name like 't,p0,global'";
     CallExecuteStmt 0 "show stats_meta where table_name like 't,p0,global'";
     CallResultSetToStringSlice
       (Some 0) (Some "show stats_meta where table_name like 't,p0,global'")] /\
  fst (MustNoGlobalStats Mock.engine Mock.tk0 "t,p0,p1" Mock.process0) = Returns true.
Proof.
  assert (forall text : string,
             ~ mentions_global (mkResult [[text; "p0"; "p1'"]])) as Hnone.
  { intros text (row & c & Hin & Hcol & Hsub).
    destruct Hin as [<-|[]]. inversion Hcol; subst c.
    apply Contains_spec in Hsub. discriminate. }
  assert (mentions_global
            (mkResult [["show stats_meta where table_name like 't"; "p0"; "global'"]]))
    as Hsome.
  { exists ["show stats_meta where table_name like 't"; "p0"; "global'"], "global'".
    split; [left; reflexivity | ]. split; [reflexivity | ].
    exists "", "'". reflexivity. }
  destruct (MustNoGlobalStats_outcome Mock.engine Mock.tk0 "t,p0,global" Mock.process0
              (p1:=snd (MustQuery Mock.engine Mock.tk0
                          "show stats_meta where table_name like 't,p0,global'" []
                          Mock.process0))
              (r1:=mkResult [["show stats_meta where table_name like 't"; "p0"; "global'"]])
              eq_refl) as [Hglobal _]; [repeat constructor | ].
  rewrite (Hglobal Hsome).
  destruct (MustNoGlobalStats_outcome Mock.engine Mock.tk0 "t,p0,p1" Mock.process0
              (p1:=snd (MustQuery Mock.engine Mock.tk0
                          "show stats_meta where table_name like 't,p0,p1'" []
                          Mock.process0))
              (r1:=mkResult [["show stats_meta where table_name like 't"; "p0"; "p1'"]])
              eq_refl) as [_ Hnext]; [repeat constructor | ].
  destruct (Hnext (Hnone _)
              (mkResult [["show stats_buckets where table_name like 't"; "p0"; "p1'"]])
              _ eq_refl) as [_ Hlast]; [repeat constructor | ].
  destruct (Hlast (Hnone _)
              (mkResult [["show stats_histograms where table_name like 't"; "p0"; "p1'"]])
              _ eq_refl) as [_ Htrue]; [repeat constructor | ].
  rewrite (Htrue (Hnone _)).
  repeat split; reflexivity.
Defined.

Lemma CheckExecResult_passes_iff_witness :
  MockHelpers.AffectedRows 0 Mock.world0 = 0%Z /\
  MockHelpers.LastInsertID 0 Mock.world0 = (2 ^ 64 - 1)%Z /\
  CheckExecResult MockHelpers.AffectedRows MockHelpers.LastInsertID Mock.tk0 0 (-1)
    Mock.process0 = (Returns tt, Mock.process0) /\
  CheckExecResult MockHelpers.AffectedRows MockHelpers.LastInsertID Mock.tk0 0 (2 ^ 64 - 1)
    Mock.process0 = (FailNow, Mock.process0).
Proof.
  split; [reflexivity | ]. split; [reflexivity | ]. split.
  - destruct (CheckExecResult_passes_iff MockHelpers.AffectedRows MockHelpers.LastInsertID
                Mock.tk0 (se:=0) 0 (-1) Mock.process0 eq_refl) as [[_ Hpass] _].
    + split; [apply Z.le_refl | reflexivity].
    + split; [discriminate | reflexivity].
    + apply Hpass. split; reflexivity.
  - destruct (CheckExecResult_passes_iff MockHelpers.AffectedRows MockHelpers.LastInsertID
                Mock.tk0 (se:=0) 0 (2 ^ 64 - 1) Mock.process0 eq_refl)
      as [[Hpass _] [Hyes | Hno]].
    + split; [apply Z.le_refl | reflexivity].
    + split; [discriminate | reflexivity].
    + destruct (Hpass Hyes) as [_ Hid]. discriminate.
    + exact Hno.
Defined.

Lemma NewTestKit_outcome_witness :
  fst (NewTestKit Mock.engine true Mock.process0) = Returns (mkTestKit true (Some 1)) /\
  connectionID (world (snd (NewTestKit Mock.engine true Mock.process0))) 1 = 1%Z /\
  fst (NewTestKit Mock.engine false Mock.process0) = FailNow /\
  testKitIDGenerator (snd (NewTestKit Mock.engine false Mock.process0)) = 0%Z.
Proof.
  destruct (NewTestKit_outcome Mock.engine true Mock.process0
              (ose:=Some 1) (err:=None)
              (w1:=snd (Mock.CreateSession4Test true Mock.world0)) eq_refl)
    as [_ Hnew].
  destruct (Hnew 1 eq_refl eq_refl) as (p' & Hrun & _ & Hid & _).
  destruct (NewTestKit_outcome Mock.engine false Mock.process0
              (ose:=None) (err:=Some (errorString "store is closed"))
              (w1:=Mock.world0) eq_refl)
    as [Hfail _].
  rewrite Hrun, Hfail by discriminate.
  split; [reflexivity | ]. split; [ | split; reflexivity].
  cbn [snd]. rewrite Hid.
  assert (testKitIDGenerator p'
          = testKitIDGenerator (snd (NewTestKit Mock.engine true Mock.process0))) as ->
    by (rewrite Hrun; reflexivity).
  reflexivity.
Defined.

Lemma RefreshSession_outcome_witness :
  fst (RefreshSession Mock.engine Mock.tk0 Mock.process0) = Returns (mkTestKit true (Some 1)) /\
  connectionID (world (snd (RefreshSession Mock.engine Mock.tk0 Mock.process0))) 1 = 1%Z /\
  fst (RefreshSession Mock.engine (mkTestKit false (Some 0)) Mock.process0) = FailNow.
Proof.
  destruct (RefreshSession_outcome Mock.engine Mock.tk0 Mock.process0
              (ose:=Some 1) (err:=None)
              (w1:=snd (Mock.CreateSession4Test true Mock.world0)) eq_refl)
    as (_ & Hnew & _).
  destruct (Hnew 1 eq_refl eq_refl) as (p' & Hrun & Hworld & _).
  destruct (RefreshSession_outcome Mock.engine (mkTestKit false (Some 0)) Mock.process0
              (ose:=None) (err:=Some (errorString "store is closed"))
              (w1:=Mock.world0) eq_refl)
    as (Hfail & _).
  rewrite Hrun, Hfail by discriminate.
  split; [reflexivity | ]. split; [ | reflexivity].
  cbn [snd]. rewrite Hworld. reflexivity.
Defined.

Lemma RefreshConnectionID_outcome_witness :
  RefreshConnectionID (mkTestKit true None) Mock.process0 = (Returns tt, Mock.process0) /\
  fst (RefreshConnectionID Mock.tk0 Mock.process0) = Returns tt /\
  connectionID (world (snd (RefreshConnectionID Mock.tk0 Mock.process0))) 0 = 1%Z /\
  connectionID (world (snd (RefreshConnectionID Mock.tk0 Mock.process0))) 5 = 0%Z.
Proof.
  destruct (RefreshConnectionID_outcome (mkTestKit true None) Mock.process0) as [Hnil _].
  destruct (RefreshConnectionID_outcome Mock.tk0 Mock.process0) as [_ Hset].
  destruct (Hset 0 eq_refl) as (p' & Hrun & Hgen & Hid & Hother & _).
  rewrite (Hnil eq_refl), Hrun. cbn [fst snd].
  split; [reflexivity | ]. split; [reflexivity | ].
  rewrite Hid, Hgen, (Hother 5) by discriminate. split; reflexivity.
Defined.
